(** * redactor: the Flask static server [app.py], embedded and verified

    The program is a single Python module.  It creates a Flask application,
    fixes one configuration value, registers two routes and two error
    handlers, and, when run as a script, reads [PORT] and [FLASK_ENV] from
    the process environment and starts the development server.

    The development has four layers:
    - [Py]: the fragment of the Python runtime the module touches
      (exceptions, [int()], [os.environ], [datetime.isoformat]);
    - [Flask]: the request path of the framework the module is written
      against (URL map, view call, error-handler lookup, debug propagation);
    - [App]: the module itself, statement by statement;
    - [Iso8601]: an independent reader of ISO-8601 timestamps, used to say
      what "the timestamp parses" means. *)

From Stdlib Require Import ZArith Lia List Ascii String Bool Arith.
From stdpp Require Import base gmap strings list.


(** ** Python runtime fragment

    A Python [str] is a Rocq [string], one character per code point.  Only
    code points below 256 can be written that way; what the program does
    with other characters is outside this development. *)
Module Py.
Local Open Scope Z_scope.

(** Exceptions that can travel through the module, identified by their
    class: [HTTPException] is werkzeug's family, told apart by the status
    code; [TemplateNotFound] carries the template name; the text of an
    error message is not represented. *)
Inductive exn : Type :=
| HTTPException (code : nat)
| TemplateNotFound (name : string)
| ValueError
| OtherException (name : string).

(** A computation either returns or raises. *)
Inductive result (A : Type) : Type :=
| Return (a : A)
| Raise (e : exn).
Arguments Return {A} a.
Arguments Raise {A} e.

Definition bind {A B} (m : result A) (k : A -> result B) : result B :=
  match m with
  | Return a => k a
  | Raise e => Raise e
  end.

(** *** Decimal output: the [%0wd] conversion *)

Definition digit_char (d : Z) : ascii := ascii_of_nat (Z.to_nat (48 + d)).

(** Digits of [n >= 0], most significant first.  [fuel] bounds the number
    of digits; a number has no more decimal digits than binary ones. *)
Fixpoint decimal_aux (fuel : nat) (n : Z) (acc : list ascii) : list ascii :=
  match fuel with
  | O => acc
  | S fuel' =>
      let acc' := digit_char (n mod 10) :: acc in
      if n / 10 =? 0 then acc' else decimal_aux fuel' (n / 10) acc'
  end.

Definition decimal (n : Z) : list ascii :=
  decimal_aux (S (Z.to_nat (Z.log2 n))) n [].

(** ['%0wd' % n] for [n >= 0]: at least [w] characters, padded on the
    left with zeros, never truncated. *)
Definition pad_d (w : nat) (n : Z) : list ascii :=
  let ds := decimal n in
  repeat "0"%char (w - length ds)%nat ++ ds.

(** *** [datetime] *)

(** A naive [datetime.datetime] (no [tzinfo]), as [datetime.utcnow()]
    returns it. *)
Record datetime : Type := mk_datetime {
  year : Z; month : Z; day : Z;
  hour : Z; minute : Z; second : Z;
  microsecond : Z
}.

Definition is_leap (y : Z) : bool :=
  (y mod 4 =? 0) && (negb (y mod 100 =? 0) || (y mod 400 =? 0)).

Definition days_in_month (y m : Z) : Z :=
  match m with
  | 2 => if is_leap y then 29 else 28
  | 4 | 6 | 9 | 11 => 30
  | _ => 31
  end.

(** The range checks of the [datetime] constructor: every [datetime]
    object satisfies them. *)
Definition dt_valid (d : datetime) : bool :=
  (1 <=? year d) && (year d <=? 9999) &&
  (1 <=? month d) && (month d <=? 12) &&
  (1 <=? day d) && (day d <=? days_in_month (year d) (month d)) &&
  (0 <=? hour d) && (hour d <? 24) &&
  (0 <=? minute d) && (minute d <? 60) &&
  (0 <=? second d) && (second d <? 60) &&
  (0 <=? microsecond d) && (microsecond d <? 1000000).

(** [datetime.isoformat()] with the default separator and
    [timespec='auto']: [YYYY-MM-DDTHH:MM:SS], followed by [.ffffff] only
    when the microsecond field is not zero.  A naive datetime prints no
    UTC offset. *)
Definition isoformat_chars (d : datetime) : list ascii :=
  pad_d 4 (year d) ++ "-"%char :: pad_d 2 (month d) ++ "-"%char ::
  pad_d 2 (day d) ++ "T"%char ::
  pad_d 2 (hour d) ++ ":"%char :: pad_d 2 (minute d) ++ ":"%char ::
  pad_d 2 (second d) ++
  (if microsecond d =? 0 then [] else "."%char :: pad_d 6 (microsecond d)).

Definition isoformat (d : datetime) : string :=
  string_of_list_ascii (isoformat_chars d).

(** Comparison of datetimes ([<=] on naive datetimes is field by field,
    most significant first). *)
Definition dt_key (d : datetime) : list Z :=
  [year d; month d; day d; hour d; minute d; second d; microsecond d].

Fixpoint lex_leb (a b : list Z) : bool :=
  match a, b with
  | [], _ => true
  | _ :: _, [] => false
  | x :: a', y :: b' => (x <? y) || ((x =? y) && lex_leb a' b')
  end.

Definition dt_leb (d1 d2 : datetime) : bool := lex_leb (dt_key d1) (dt_key d2).

(** [str <= str]: code point by code point, a proper prefix is smaller. *)
Fixpoint chars_leb (a b : list ascii) : bool :=
  match a, b with
  | [], _ => true
  | _ :: _, [] => false
  | x :: a', y :: b' =>
      (nat_of_ascii x <? nat_of_ascii y)%nat ||
      ((nat_of_ascii x =? nat_of_ascii y)%nat && chars_leb a' b')
  end.

Definition str_leb (s t : string) : bool :=
  chars_leb (list_ascii_of_string s) (list_ascii_of_string t).

(** *** Values, [int()] and [os.environ] *)

(** The Python values the start-up code passes around. *)
Inductive value : Type :=
| VNone
| VBool (b : bool)
| VInt (n : Z)
| VStr (s : string).

(** [==] on these values: values of different types are unequal. *)
Definition py_eq (a b : value) : bool :=
  match a, b with
  | VNone, VNone => true
  | VBool x, VBool y => Bool.eqb x y
  | VInt x, VInt y => x =? y
  | VStr x, VStr y => String.eqb x y
  | _, _ => false
  end.

(** The white space [int()] skips around a literal: TAB, LF, VT, FF, CR
    and the space, and, above the ASCII range, NEL (U+0085) and the
    no-break space (U+00A0), which [int()] first turns into spaces.  The
    separators FS..US (U+001C..U+001F) are white space for [str.isspace]
    but are not skipped by [int()]. *)
Definition is_space (c : ascii) : bool :=
  let n := nat_of_ascii c in
  ((9 <=? n)%nat && (n <=? 13)%nat) || (n =? 32)%nat ||
  (n =? 133)%nat || (n =? 160)%nat.

(** [str.isspace] on one character (below 256). *)
Definition is_unicode_space (c : ascii) : bool :=
  let n := nat_of_ascii c in
  ((9 <=? n)%nat && (n <=? 13)%nat) || ((28 <=? n)%nat && (n <=? 32)%nat) ||
  (n =? 133)%nat || (n =? 160)%nat.

Definition digit_val (c : ascii) : option Z :=
  let n := Z.of_nat (nat_of_ascii c) in
  if (48 <=? n) && (n <=? 57) then Some (n - 48) else None.

Fixpoint lstrip (s : list ascii) : list ascii :=
  match s with
  | c :: s' => if is_space c then lstrip s' else s
  | [] => []
  end.

Definition strip (s : list ascii) : list ascii := rev (lstrip (rev (lstrip s))).

(** Decimal digits, where one underscore may stand between two digits.
    [after_digit] tells whether the previous character was a digit. *)
Fixpoint int_digits (s : list ascii) (acc : Z) (after_digit : bool) : option Z :=
  match s with
  | [] => if after_digit then Some acc else None
  | c :: s' =>
      match digit_val c with
      | Some d => int_digits s' (10 * acc + d) true
      | None =>
          if Ascii.eqb c "_" && after_digit then int_digits s' acc false
          else None
      end
  end.

(** The interpreter refuses to convert a literal of more digits than
    [sys.get_int_max_str_digits()]; 4300 is the default, which start-up
    options can change.  Underscores do not count, leading zeros do. *)
Definition max_str_digits : Z := 4300.

Fixpoint count_digits (s : list ascii) : Z :=
  match s with
  | [] => 0
  | c :: s' =>
      match digit_val c with
      | Some _ => 1 + count_digits s'
      | None => count_digits s'
      end
  end.

(** The digits of a literal, after the sign. *)
Definition int_literal (ds : list ascii) : option Z :=
  match int_digits ds 0 false with
  | Some n => if count_digits ds <=? max_str_digits then Some n else None
  | None => None
  end.

(** [int(s)] for a [str], base 10: surrounding white space is dropped, one
    sign may precede the digits; [None] stands for [ValueError]. *)
Definition int_of_str (s : string) : option Z :=
  match strip (list_ascii_of_string s) with
  | "+"%char :: ds => int_literal ds
  | "-"%char :: ds => Z.opp <$> int_literal ds
  | ds => int_literal ds
  end.

(** [int(v)]: an [int] is returned as it is, a [str] is parsed and
    [ValueError] raised when it is no integer literal or too long. *)
Definition int (v : value) : result Z :=
  match v with
  | VInt n => Return n
  | VBool b => Return (if b then 1 else 0)
  | VStr s =>
      match int_of_str s with
      | Some n => Return n
      | None => Raise ValueError
      end
  | VNone => Raise (OtherException "TypeError")
  end.

(** [os.environ.get(key)] and [os.environ.get(key, default)]. *)
Definition environ_get (environ : gmap string string) (key : string) : value :=
  match environ !! key with
  | Some s => VStr s
  | None => VNone
  end.

Definition environ_get_default (environ : gmap string string) (key : string)
    (default : value) : value :=
  match environ !! key with
  | Some s => VStr s
  | None => default
  end.

(** *** JSON values, as [jsonify] serialises them *)
Local Unset Elimination Schemes.
Inductive json : Type :=
| JNull
| JBool (b : bool)
| JInt (n : Z)
| JStr (s : string)
| JArr (items : list json)
| JObj (fields : list (string * json)).
Local Set Elimination Schemes.

(** Member access on a parsed object. *)
Definition json_get (j : json) (key : string) : option json :=
  match j with
  | JObj fields => snd <$> find (fun kv => String.eqb (fst kv) key) fields
  | _ => None
  end.

End Py.

(** ** The request path of Flask

    What [Flask.wsgi_app] does with one request, for an application that
    uses no blueprints, no before/after-request hooks and no handlers
    registered by exception class.  Function names are the framework's. *)
Module Flask.
Import Py.

(** The request as the application sees it: [method] is upper case,
    [path] is [PATH_INFO], [content_length] is the announced size of the
    body in bytes. *)
Record Request : Type := mk_request {
  method : string;
  path : string;
  content_length : Z
}.

(** A response body is kept symbolic where the framework, not the
    application, writes it.  A JSON body is given by the value it parses
    to: its layout (compact, or indented in debug mode) is not
    represented. *)
Inductive Body : Type :=
| BText (s : string)        (* text returned by a view *)
| BJson (j : json)          (* [jsonify], up to JSON white space *)
| BFile (data : string)     (* a file of the static folder *)
| BErrorPage (code : nat)   (* werkzeug's HTML page for an HTTPException *)
| BDebugger (e : exn)       (* werkzeug's interactive traceback page *)
| BEmpty.

Record Response : Type := mk_response {
  status : nat;
  mimetype : string;
  body : Body
}.

(** What a view or an error handler may return: text, a response, or a
    pair of one of these and a status code. *)
Inductive rv : Type :=
| RvStr (s : string)
| RvResponse (r : Response)
| RvTuple (v : rv) (status : nat).

(** [Flask.make_response]. *)
Fixpoint make_response (v : rv) : Response :=
  match v with
  | RvStr s => mk_response 200 "text/html" (BText s)
  | RvResponse r => r
  | RvTuple v' st =>
      let r := make_response v' in mk_response st (mimetype r) (body r)
  end.

(** [flask.jsonify]: status 200, JSON content type, and a document with
    the given value. *)
Definition jsonify (j : json) : Response :=
  mk_response 200 "application/json" (BJson j).

(** An HTTPException used as a response: its own code and HTML page. *)
Definition http_error_response (code : nat) : Response :=
  mk_response code "text/html" (BErrorPage code).

(** What a request can observe outside the application object: the UTC
    wall clock at the time of the call, the template folder (template
    name to the text it renders to) and the static folder (file name to
    the content type guessed from the name, and the content).  Neither
    folder is in the source tree. *)
Record Env : Type := mk_env {
  utcnow : datetime;
  templates : gmap string string;
  static_files : gmap string (string * string)
}.

Definition view_args : Type := list (string * string).
Definition View : Type := Env -> Request -> view_args -> result rv.
Definition ErrorHandler : Type := exn -> result rv.

(** URL rules.  A rule without converters matches one path; the static
    rule ends in a [<path:...>] converter. *)
Inductive Pattern : Type :=
| Exact (p : string)
| PathUnder (prefix : string) (arg : string).

Record Rule : Type := mk_rule {
  pattern : Pattern;
  endpoint : string;
  methods : list string
}.

Record App : Type := mk_app {
  config : gmap string value;
  url_map : list Rule;
  view_functions : gmap string View;
  error_handler_spec : gmap nat ErrorHandler
}.

(** [flask.render_template]: [TemplateNotFound] when the folder has no
    such template.  For a template that is there, the folder gives the
    text it renders to; errors in loading or rendering a present template
    are not described. *)
Definition render_template (env : Env) (name : string) : result string :=
  match templates env !! name with
  | Some text => Return text
  | None => Raise (TemplateNotFound name)
  end.

(** The body is read through the request object, and the size limit is
    applied there: werkzeug raises [RequestEntityTooLarge] (413) when the
    data of a request longer than [MAX_CONTENT_LENGTH] is asked for. *)
Definition max_content_length (a : App) : option Z :=
  match config a !! "MAX_CONTENT_LENGTH" with
  | Some (VInt n) => Some n
  | _ => None
  end.

Definition get_data (a : App) (req : Request) : result Z :=
  match max_content_length a with
  | Some limit =>
      if (limit <? content_length req)%Z then Raise (HTTPException 413)
      else Return (content_length req)
  | None => Return (content_length req)
  end.

(** [posixpath.normpath]: empty and [.] components are dropped, [..]
    removes the component before it, one or two leading slashes are kept. *)
Fixpoint split_slash (l cur : list ascii) : list string :=
  match l with
  | [] => [string_of_list_ascii (rev cur)]
  | c :: l' =>
      if Ascii.eqb c "/" then string_of_list_ascii (rev cur) :: split_slash l' []
      else split_slash l' (c :: cur)
  end.

Fixpoint norm_comps (comps : list string) (initial : bool) (acc : list string)
    : list string :=
  match comps with
  | [] => rev acc
  | comp :: rest =>
      if String.eqb comp "" || String.eqb comp "." then norm_comps rest initial acc
      else if negb (String.eqb comp "..")
              || (negb initial && match acc with [] => true | _ => false end)
              || match acc with top :: _ => String.eqb top ".." | [] => false end
      then norm_comps rest initial (comp :: acc)
      else norm_comps rest initial (tail acc)
  end.

Definition initial_slashes (p : string) : string :=
  if String.prefix "///" p then "/"
  else if String.prefix "//" p then "//"
  else if String.prefix "/" p then "/"
  else "".

Definition normpath (p : string) : string :=
  match p with
  | EmptyString => "."
  | _ =>
      let lead := initial_slashes p in
      let comps :=
        norm_comps (split_slash (list_ascii_of_string p) [])
          (negb (String.eqb lead "")) [] in
      match lead +:+ String.concat "/" comps with
      | EmptyString => "."
      | q => q
      end
  end.

(** [werkzeug.security.safe_join] on a POSIX system, as the path below the
    directory: [None] when the normalised name would leave it. *)
Definition safe_join (filename : string) : option string :=
  let f := match filename with EmptyString => "" | _ => normpath filename end in
  if String.prefix "/" f || String.eqb f ".." || String.prefix "../" f
  then None else Some f.

(** The regular file a requested name stands for, if there is one:
    [static_files] lists the files of the static folder by their
    normalised relative path, so the folder itself ([.]) is none. *)
Definition static_file (env : Env) (filename : string) : option (string * string) :=
  match safe_join filename with
  | Some f => if String.eqb f "." then None else static_files env !! f
  | None => None
  end.

(** [Flask.send_static_file], for a plain (unconditional) request:
    [send_from_directory] answers 404 unless the name, made safe, is a
    file of the static folder. *)
Definition send_static_file : View := fun env _ args =>
  match args with
  | (_, filename) :: _ =>
      match static_file env filename with
      | Some (mime, data) => Return (RvResponse (mk_response 200 mime (BFile data)))
      | None => Raise (HTTPException 404)
      end
  | [] => Raise (OtherException "TypeError")
  end.

Definition default_config : gmap string value :=
  <["DEBUG" := VBool false]> (<["TESTING" := VBool false]>
  (<["PROPAGATE_EXCEPTIONS" := VNone]> (<["MAX_CONTENT_LENGTH" := VNone]> ∅))).

(** Methods of a rule registered without [methods=]: GET, with HEAD and
    the automatic OPTIONS added. *)
Definition default_methods : list string := ["GET"; "HEAD"; "OPTIONS"].

(** [Flask(__name__)]: default configuration and the static route. *)
Definition new_app : App :=
  mk_app default_config
    [mk_rule (PathUnder "/static/" "filename") "static" default_methods]
    {["static" := send_static_file]}
    ∅.

(** [app.config[key] = v]. *)
Definition config_set (key : string) (v : value) (a : App) : App :=
  mk_app (<[key := v]> (config a)) (url_map a) (view_functions a)
    (error_handler_spec a).

(** [@app.route(rule)] on a function named [name]. *)
Definition route (rule name : string) (f : View) (a : App) : App :=
  mk_app (config a)
    (url_map a ++ [mk_rule (Exact rule) name default_methods])
    (<[name := f]> (view_functions a))
    (error_handler_spec a).

(** [@app.errorhandler(code)]. *)
Definition errorhandler (code : nat) (f : ErrorHandler) (a : App) : App :=
  mk_app (config a) (url_map a) (view_functions a)
    (<[code := f]> (error_handler_spec a)).

(** *** URL matching *)

Fixpoint strip_prefix (prefix s : string) : option string :=
  match prefix, s with
  | EmptyString, _ => Some s
  | String a prefix', String b s' =>
      if Ascii.eqb a b then strip_prefix prefix' s' else None
  | String _ _, EmptyString => None
  end.

(** The [path] converter takes a non-empty remainder that does not begin
    with a slash. *)
Definition path_arg_ok (rest : string) : bool :=
  match rest with
  | EmptyString => false
  | String c _ => negb (Ascii.eqb c "/")
  end.

(** The map compares the path with its leading slashes collapsed into
    one; an empty path stays empty (it occurs only when the application is
    mounted below the root, which [app.run] does not do). *)
Fixpoint lstrip_slashes (s : string) : string :=
  match s with
  | String c s' => if Ascii.eqb c "/" then lstrip_slashes s' else s
  | EmptyString => EmptyString
  end.

Definition path_part (p : string) : string :=
  match p with
  | EmptyString => EmptyString
  | _ => String "/" (lstrip_slashes p)
  end.

Definition rule_matches (r : Rule) (p : string) : option view_args :=
  match pattern r with
  | Exact s => if String.eqb p s then Some [] else None
  | PathUnder prefix arg =>
      match strip_prefix prefix p with
      | Some rest => if path_arg_ok rest then Some [(arg, rest)] else None
      | None => None
      end
  end.

Definition method_allowed (r : Rule) (m : string) : bool :=
  existsb (String.eqb m) (methods r).

(** [MapAdapter.match]: the first rule whose path and method both match;
    otherwise [MethodNotAllowed] if some rule matched the path, and
    [NotFound] if none did.  The redirects of the URL map (for a path that
    matches a rule only once its runs of slashes are merged, and for an
    empty path) are not described. *)
Fixpoint match_rules (rules : list Rule) (req : Request) (path_seen : bool)
    : result (Rule * view_args) :=
  match rules with
  | [] => Raise (HTTPException (if path_seen then 405 else 404))
  | r :: rules' =>
      match rule_matches r (path_part (path req)) with
      | Some args =>
          if method_allowed r (method req) then Return (r, args)
          else match_rules rules' req true
      | None => match_rules rules' req path_seen
      end
  end.

Definition match_request (a : App) (req : Request) : result (Rule * view_args) :=
  match_rules (url_map a) req false.

(** *** Dispatch and error handling *)

(** The automatic answer to OPTIONS. *)
Definition make_default_options_response : Response :=
  mk_response 200 "text/html" BEmpty.

(** [Flask.dispatch_request]: raise the routing exception if there is
    one, answer OPTIONS, otherwise call the view of the matched rule. *)
Definition dispatch_request (a : App) (env : Env) (req : Request) : result rv :=
  bind (match_request a req) (fun '(r, args) =>
    if String.eqb (method req) "OPTIONS"
    then Return (RvResponse make_default_options_response)
    else
      match view_functions a !! endpoint r with
      | Some f => f env req args
      | None => Raise (OtherException "KeyError")
      end).

(** Handlers are registered by status code only. *)
Definition find_error_handler (a : App) (e : exn) : option ErrorHandler :=
  match e with
  | HTTPException code => error_handler_spec a !! code
  | _ => None
  end.

(** [Flask.handle_http_exception]: the registered handler, or the
    exception itself as the response. *)
Definition handle_http_exception (a : App) (code : nat) : result rv :=
  match find_error_handler a (HTTPException code) with
  | Some h => h (HTTPException code)
  | None => Return (RvResponse (http_error_response code))
  end.

(** [Flask.handle_user_exception]: HTTP exceptions are handled, anything
    else without a handler is raised again. *)
Definition handle_user_exception (a : App) (e : exn) : result rv :=
  match e with
  | HTTPException code => handle_http_exception a code
  | _ => Raise e
  end.

(** [Flask.full_dispatch_request]. *)
Definition full_dispatch_request (a : App) (env : Env) (req : Request)
    : result Response :=
  match dispatch_request a env req with
  | Return v => Return (make_response v)
  | Raise e => bind (handle_user_exception a e) (fun v => Return (make_response v))
  end.

Definition config_flag (a : App) (key : string) : bool :=
  match config a !! key with
  | Some (VBool b) => b
  | _ => false
  end.

(** [PROPAGATE_EXCEPTIONS]; when it is [None] the testing and debug
    flags decide. *)
Definition propagate_exceptions (a : App) : bool :=
  match config a !! "PROPAGATE_EXCEPTIONS" with
  | Some (VBool b) => b
  | _ => config_flag a "TESTING" || config_flag a "DEBUG"
  end.

(** The result of one pass through the application: the response, or the
    exception that left it, and the exceptions written to the
    application log on the way. *)
Record Handled : Type := mk_handled {
  outcome : result Response;
  logged : list exn
}.

(** [Flask.handle_exception]: raise again when exceptions propagate;
    otherwise log, wrap into [InternalServerError] and give it to the 500
    handler if there is one. *)
Definition handle_exception (a : App) (e : exn) : Handled :=
  if propagate_exceptions a then mk_handled (Raise e) []
  else
    mk_handled
      (match find_error_handler a (HTTPException 500) with
       | Some h => bind (h (HTTPException 500)) (fun v => Return (make_response v))
       | None => Return (http_error_response 500)
       end)
      [e].

(** [Response.__call__]: the answer to a HEAD request has the status and
    the headers of the response, and no body. *)
Definition send (req : Request) (r : Response) : Response :=
  if String.eqb (method req) "HEAD"
  then mk_response (status r) (mimetype r) BEmpty
  else r.

(** [Flask.wsgi_app]: dispatch, handle what was raised, send. *)
Definition wsgi_app (a : App) (env : Env) (req : Request) : Handled :=
  let h :=
    match full_dispatch_request a env req with
    | Return r => mk_handled (Return r) []
    | Raise e => handle_exception a e
    end in
  mk_handled
    (match outcome h with
     | Return r => Return (send req r)
     | Raise e => Raise e
     end)
    (logged h).

(** *** The development server *)

Record Server : Type := mk_server {
  srv_app : App;
  host : string;
  port : Z;
  use_debugger : bool
}.

(** [app.run(host, port, debug)]: the debug flag passed in overrides the
    configuration, and the debugger is used exactly in debug mode. *)
Definition run (a : App) (h : string) (p : Z) (debug : bool) : Server :=
  mk_server (config_set "DEBUG" (VBool debug) a) h p debug.

(** One request through the server.  An exception that leaves the
    application is shown by the debugger when it is on (the debugger
    writes its page itself), and answered with werkzeug's own 500 response
    otherwise. *)
Definition serve (srv : Server) (env : Env) (req : Request) : Response :=
  match outcome (wsgi_app (srv_app srv) env req) with
  | Return r => r
  | Raise e =>
      if use_debugger srv then mk_response 500 "text/html" (BDebugger e)
      else send req (http_error_response 500)
  end.

End Flask.

(** ** The module [app.py] *)
Module App.
Import Py Flask.

(** [def index()]. *)
Definition index : View := fun env _ _ =>
  bind (render_template env "index.html") (fun text => Return (RvStr text)).

(** [def health_check()]. *)
Definition health_check : View := fun env _ _ =>
  Return (RvResponse (jsonify (JObj
    [("status", JStr "healthy");
     ("timestamp", JStr (isoformat (utcnow env)))]))).

(** [def not_found(error)]. *)
Definition not_found : ErrorHandler := fun _ =>
  Return (RvTuple (RvResponse (jsonify (JObj [("error", JStr "Not found")]))) 404).

(** [def internal_error(error)]. *)
Definition internal_error : ErrorHandler := fun _ =>
  Return (RvTuple
    (RvResponse (jsonify (JObj [("error", JStr "Internal server error")]))) 500).

(** The module-level statements, in order. *)
Definition app : Flask.App :=
  errorhandler 500 internal_error
    (errorhandler 404 not_found
      (route "/health" "health_check" health_check
        (route "/" "index" index
          (config_set "MAX_CONTENT_LENGTH" (VInt (16 * 1024 * 1024))
            new_app)))).

(** The [if __name__ == '__main__':] block.  Line 43 is evaluated first,
    so a [ValueError] from [int] ends the process before anything else
    happens. *)
Definition main (environ : gmap string string) : result Server :=
  bind (int (environ_get_default environ "PORT" (VInt 8082))) (fun port =>
    let debug := py_eq (environ_get environ "FLASK_ENV") (VStr "development") in
    Return (run app "0.0.0.0" port debug)).

End App.

(** ** Reading a timestamp

    The reader a client applies to the [timestamp] field: ISO-8601 extended
    format, calendar date and time of day separated by [T], an optional
    decimal fraction of the second (one to six digits) and an optional zone
    designator ([Z] or a signed [hh:mm]).  It is written from the standard,
    not from [isoformat]. *)
Module Iso8601.
Import Py.
Local Open Scope Z_scope.

(** Exactly [k] decimal digits. *)
Fixpoint digits (k : nat) (acc : Z) (s : list ascii) : option (Z * list ascii) :=
  match k with
  | O => Some (acc, s)
  | S k' =>
      match s with
      | c :: s' =>
          match digit_val c with
          | Some d => digits k' (10 * acc + d) s'
          | None => None
          end
      | [] => None
      end
  end.

Definition expect (c : ascii) (s : list ascii) : option (list ascii) :=
  match s with
  | c' :: s' => if Ascii.eqb c c' then Some s' else None
  | [] => None
  end.

(** Up to [k] further digits of a fraction, scaled to [10^-6] seconds. *)
Fixpoint fraction (k : nat) (acc : Z) (s : list ascii) : Z * list ascii :=
  match k with
  | O => (acc, s)
  | S k' =>
      match s with
      | c :: s' =>
          match digit_val c with
          | Some d => fraction k' (10 * acc + d) s'
          | None => (acc * 10 ^ Z.of_nat k, s)
          end
      | [] => (acc * 10 ^ Z.of_nat k, s)
      end
  end.

(** [.f], [.ff], ... [.ffffff], or nothing. *)
Definition opt_fraction (s : list ascii) : option (Z * list ascii) :=
  match s with
  | "."%char :: c :: s' =>
      match digit_val c with
      | Some d => Some (fraction 5 d s')
      | None => None
      end
  | "."%char :: [] => None
  | _ => Some (0, s)
  end.

(** The zone designator, as minutes east of UTC; [None] when the
    timestamp carries none. *)
Definition zone (s : list ascii) : option (option Z) :=
  match s with
  | [] => Some None
  | ["Z"%char] => Some (Some 0)
  | sign :: s' =>
      if Ascii.eqb sign "+" || Ascii.eqb sign "-" then
        '(hh, s1) ← digits 2 0 s';
        s2 ← expect ":" s1;
        '(mm, s3) ← digits 2 0 s2;
        match s3 with
        | [] =>
            if (hh <? 24) && (mm <? 60)
            then Some (Some ((if Ascii.eqb sign "-" then -1 else 1) * (60 * hh + mm)))
            else None
        | _ => None
        end
      else None
  end.

Definition parse_chars (s : list ascii) : option (datetime * option Z) :=
  '(y, s) ← digits 4 0 s;
  s ← expect "-" s;
  '(mo, s) ← digits 2 0 s;
  s ← expect "-" s;
  '(d, s) ← digits 2 0 s;
  s ← expect "T" s;
  '(h, s) ← digits 2 0 s;
  s ← expect ":" s;
  '(mi, s) ← digits 2 0 s;
  s ← expect ":" s;
  '(sec, s) ← digits 2 0 s;
  '(us, s) ← opt_fraction s;
  z ← zone s;
  let dt := mk_datetime y mo d h mi sec us in
  if dt_valid dt then Some (dt, z) else None.

Definition parse (s : string) : option (datetime * option Z) :=
  parse_chars (list_ascii_of_string s).

End Iso8601.

(** The [timestamp] member of a JSON response, as a client reads it. *)
Definition timestamp_of (r : Flask.Response) : option string :=
  match Flask.body r with
  | Flask.BJson j =>
      match Py.json_get j "timestamp" with
      | Some (Py.JStr ts) => Some ts
      | _ => None
      end
  | _ => None
  end.

Import Py.

(** ** Auxiliary definitions for the statements *)

(** The [w] low decimal digits of [n], most significant first: what
    [pad_d w n] prints when [n] has at most [w] digits. *)
Fixpoint fixed (w : nat) (n : Z) : list ascii :=
  match w with
  | O => []
  | S w' => fixed w' (n / 10)%Z ++ [digit_char (n mod 10)%Z]
  end.


(** [str(n)] for an [int]: the canonical decimal literal. *)
Definition str_of_int (n : Z) : string :=
  string_of_list_ascii
    (if (n <? 0)%Z then "-"%char :: decimal (- n)%Z else decimal n).

(** The two JSON error responses of the module. *)
Definition json_not_found : Flask.Response :=
  Flask.mk_response 404 "application/json"
    (Flask.BJson (JObj [("error", JStr "Not found")])).

Definition json_internal_error : Flask.Response :=
  Flask.mk_response 500 "application/json"
    (Flask.BJson (JObj [("error", JStr "Internal server error")])).

(** Concrete surroundings for the examples: a deployment with its page and
    one script, and one where the template folder is empty. *)
Definition deployed : Flask.Env :=
  Flask.mk_env (mk_datetime 2024 3 9 7 5 1 250)
    {["index.html" := "<!doctype html><title>redactor</title>"]}
    {["app.js" := ("text/javascript", "console.log(1)")]}.

Definition no_templates : Flask.Env :=
  Flask.mk_env (mk_datetime 2024 1 1 0 0 0 0) ∅ ∅.

(** The wall clock at 12:00:01 and at 12:00:00 of the same day. *)
Definition noon_01 : Flask.Env :=
  Flask.mk_env (mk_datetime 2024 1 1 12 0 1 0) ∅ ∅.

Definition noon_00 : Flask.Env :=
  Flask.mk_env (mk_datetime 2024 1 1 12 0 0 0) ∅ ∅.

(** The server [python app.py] starts with an empty environment, and the
    one it starts with [FLASK_ENV=development]. *)
Definition production : Flask.Server := Flask.run App.app "0.0.0.0" 8082 false.
Definition development : Flask.Server := Flask.run App.app "0.0.0.0" 8082 true.

(** The body [health_check] returns for a given clock reading. *)
Definition health_body (env : Flask.Env) : Flask.Response :=
  Flask.jsonify (JObj [("status", JStr "healthy");
                       ("timestamp", JStr (isoformat (Flask.utcnow env)))]).

(** Only white space in the sense of [str.isspace], possibly nothing at
    all. *)
Definition blank (s : string) : bool :=
  forallb is_unicode_space (list_ascii_of_string s).

(** Only white space that [int()] skips, possibly nothing at all. *)
Definition padding (s : string) : bool :=
  forallb is_space (list_ascii_of_string s).

Example isoformat_ex1 :
  Py.isoformat (Py.mk_datetime 2024 3 9 7 5 1 0) = "2024-03-09T07:05:01".
Proof. reflexivity. Qed.

Example isoformat_ex2 :
  Py.isoformat (Py.mk_datetime 987 12 31 23 59 59 4200) = "0987-12-31T23:59:59.004200".
Proof. reflexivity. Qed.

Example int_ex1 : Py.int_of_str "9090" = Some 9090%Z. Proof. reflexivity. Qed.
Example int_ex2 : Py.int_of_str "  -1_000 " = Some (-1000)%Z. Proof. reflexivity. Qed.
Example int_ex3 : Py.int_of_str "abc" = None. Proof. reflexivity. Qed.
Example int_ex4 : Py.int_of_str "" = None. Proof. reflexivity. Qed.
Example int_ex5 : Py.int_of_str "1__0" = None. Proof. reflexivity. Qed.
Example int_ex6 : Py.int_of_str "+ 1" = None. Proof. reflexivity. Qed.
Example int_ex7 : Py.int_of_str "80_" = None. Proof. reflexivity. Qed.
Example int_ex8 : Py.int_of_str "0080" = Some 80%Z. Proof. reflexivity. Qed.
Example int_ex9 : Py.int_of_str (String (ascii_of_nat 28) "9090") = None.
Proof. reflexivity. Qed.
Example int_ex10 : Py.int_of_str (String (ascii_of_nat 160) "9090") = Some 9090%Z.
Proof. reflexivity. Qed.
Example int_ex11 :
  Py.int_of_str (string_of_list_ascii (repeat "1"%char 4300)) <> None /\
  Py.int_of_str (string_of_list_ascii (repeat "1"%char 4301)) = None.
Proof. split; [vm_compute; discriminate|vm_compute; reflexivity]. Qed.

Example parse_ex1 :
  Iso8601.parse "2024-03-09T07:05:01" = Some (Py.mk_datetime 2024 3 9 7 5 1 0, None).
Proof. reflexivity. Qed.
Example parse_ex2 :
  Iso8601.parse "2024-03-09T07:05:01.25Z" = Some (Py.mk_datetime 2024 3 9 7 5 1 250000, Some 0%Z).
Proof. reflexivity. Qed.
Example parse_ex3 :
  Iso8601.parse "2024-02-29T23:59:59.000001-05:30" =
  Some (Py.mk_datetime 2024 2 29 23 59 59 1, Some (-330)%Z).
Proof. reflexivity. Qed.
Example parse_ex4 : Iso8601.parse "2023-02-29T23:59:59" = None.
Proof. reflexivity. Qed.
Example parse_ex5 : Iso8601.parse "2024-03-09 07:05:01" = None.
Proof. reflexivity. Qed.
Example parse_ex6 : Iso8601.parse "2024-03-09T07:05:01." = None.
Proof. reflexivity. Qed.
Example parse_ex7 : Iso8601.parse "2024-03-09T07:05:01.1234567" = None.
Proof. reflexivity. Qed.

Example str_of_int_ex1 : str_of_int 9090 = "9090". Proof. reflexivity. Qed.
Example str_of_int_ex2 : str_of_int (-17) = "-17". Proof. reflexivity. Qed.
Example str_of_int_ex3 : str_of_int 0 = "0". Proof. reflexivity. Qed.

Example main_ex1 : App.main ∅ = Return production.
Proof. reflexivity. Qed.
Example main_ex2 : App.main (<["FLASK_ENV" := "development"]> ∅) = Return development.
Proof. reflexivity. Qed.
Example main_ex3 :
  App.main (<["PORT" := "9090"]> (<["FLASK_ENV" := "production"]> ∅))
  = Return (Flask.run App.app "0.0.0.0" 9090 false).
Proof. reflexivity. Qed.

Example serve_index :
  Flask.serve production deployed (Flask.mk_request "GET" "/" 0)
  = Flask.mk_response 200 "text/html"
      (Flask.BText "<!doctype html><title>redactor</title>").
Proof. reflexivity. Qed.

Example serve_health :
  Flask.serve production deployed (Flask.mk_request "GET" "/health" 0)
  = Flask.mk_response 200 "application/json"
      (Flask.BJson (JObj [("status", JStr "healthy");
                          ("timestamp", JStr "2024-03-09T07:05:01.000250")])).
Proof. reflexivity. Qed.

Example serve_static_file :
  Flask.serve production deployed (Flask.mk_request "GET" "/static/app.js" 0)
  = Flask.mk_response 200 "text/javascript" (Flask.BFile "console.log(1)").
Proof. reflexivity. Qed.

Example normpath_ex1 : Flask.normpath "css//./site.css" = "css/site.css".
Proof. reflexivity. Qed.
Example normpath_ex2 : Flask.normpath "a/../app.js/" = "app.js".
Proof. reflexivity. Qed.
Example normpath_ex3 : Flask.normpath "a/../.." = "..".
Proof. reflexivity. Qed.
Example normpath_ex4 : Flask.normpath "./" = ".".
Proof. reflexivity. Qed.
Example normpath_ex5 : Flask.normpath "//a//b/" = "//a/b".
Proof. reflexivity. Qed.
Example normpath_ex6 : Flask.normpath "///a/../../b" = "/b".
Proof. reflexivity. Qed.
Example safe_join_ex1 : Flask.safe_join "../secret" = None.
Proof. reflexivity. Qed.
Example safe_join_ex2 : Flask.safe_join "css/../../secret" = None.
Proof. reflexivity. Qed.
Example safe_join_ex3 : Flask.safe_join "./app.js" = Some "app.js".
Proof. reflexivity. Qed.

Example serve_static_normalised :
  Flask.serve production deployed (Flask.mk_request "GET" "/static/app.js/" 0)
  = Flask.mk_response 200 "text/javascript" (Flask.BFile "console.log(1)").
Proof. reflexivity. Qed.

Example serve_static_head :
  Flask.serve production deployed (Flask.mk_request "HEAD" "/static/app.js" 0)
  = Flask.mk_response 200 "text/javascript" Flask.BEmpty.
Proof. reflexivity. Qed.

Example serve_head_unknown :
  Flask.serve production deployed (Flask.mk_request "HEAD" "/api/x" 0)
  = Flask.mk_response 404 "application/json" Flask.BEmpty.
Proof. reflexivity. Qed.

Example serve_head_fault_production :
  Flask.serve production no_templates (Flask.mk_request "HEAD" "/" 0)
  = Flask.mk_response 500 "application/json" Flask.BEmpty.
Proof. reflexivity. Qed.

Example serve_static_missing :
  Flask.serve production deployed (Flask.mk_request "GET" "/static/nope.js" 0)
  = json_not_found.
Proof. reflexivity. Qed.

Example serve_unknown :
  Flask.serve production deployed (Flask.mk_request "DELETE" "/api/x" 0)
  = json_not_found.
Proof. reflexivity. Qed.

Example serve_leading_slashes :
  Flask.serve production deployed (Flask.mk_request "GET" "//health" 0)
  = Flask.serve production deployed (Flask.mk_request "GET" "/health" 0).
Proof. reflexivity. Qed.

Example serve_options :
  Flask.serve production deployed (Flask.mk_request "OPTIONS" "/health" 0)
  = Flask.mk_response 200 "text/html" Flask.BEmpty.
Proof. reflexivity. Qed.

Example serve_post :
  Flask.serve production deployed (Flask.mk_request "POST" "/health" 0)
  = Flask.http_error_response 405.
Proof. reflexivity. Qed.

Example serve_fault_production :
  Flask.serve production no_templates (Flask.mk_request "GET" "/" 0)
  = json_internal_error.
Proof. reflexivity. Qed.

Example serve_fault_development :
  Flask.serve development no_templates (Flask.mk_request "GET" "/" 0)
  = Flask.mk_response 500 "text/html" (Flask.BDebugger (TemplateNotFound "index.html")).
Proof. reflexivity. Qed.

Example get_data_limit :
  Flask.get_data App.app (Flask.mk_request "POST" "/upload" 16777217)
  = Raise (HTTPException 413).
Proof. reflexivity. Qed.

(** * Properties *)

Lemma digit_cases (d : Z) :
  (0 <= d < 10)%Z ->
  d = 0%Z \/ d = 1%Z \/ d = 2%Z \/ d = 3%Z \/ d = 4%Z \/
  d = 5%Z \/ d = 6%Z \/ d = 7%Z \/ d = 8%Z \/ d = 9%Z.
Proof. lia. Qed.

(** Case analysis on a digit, so that its character computes. *)
Ltac each_digit d H :=
  destruct (digit_cases d H) as [->|[->|[->|[->|[->|[->|[->|[->|[->| ->]]]]]]]]].

(** ** Decimal output *)
Section DecimalOutput.
Local Open Scope Z_scope.

Lemma digit_val_digit_char (d : Z) : 0 <= d < 10 -> digit_val (digit_char d) = Some d.
Proof. intros H. each_digit d H; reflexivity. Qed.

Lemma nat_of_ascii_digit_char (d : Z) :
  0 <= d < 10 -> Z.of_nat (nat_of_ascii (digit_char d)) = 48 + d.
Proof. intros H. each_digit d H; reflexivity. Qed.

Lemma decimal_aux_app (f : nat) : forall n acc,
  decimal_aux f n acc = decimal_aux f n [] ++ acc.
Proof.
  induction f as [|f IH]; intros n acc; simpl; [reflexivity|].
  destruct (n / 10 =? 0); [reflexivity|].
  rewrite IH, (IH _ [_]), <- app_assoc. reflexivity.
Qed.

Lemma fixed_zero (w : nat) : fixed w 0 = repeat "0"%char w.
Proof.
  induction w as [|w IH]; simpl; [reflexivity|].
  change (0 / 10) with 0. rewrite IH.
  change (digit_char (0 mod 10)) with "0"%char.
  rewrite repeat_cons. reflexivity.
Qed.

Lemma length_fixed (w : nat) (n : Z) : length (fixed w n) = w.
Proof.
  revert n; induction w as [|w IH]; intros n; simpl; [reflexivity|].
  rewrite length_app, IH. simpl. lia.
Qed.

Lemma decimal_aux_fixed (w : nat) : forall (f : nat) (n : Z),
  0 <= n < 10 ^ Z.of_nat (S w) -> n < 2 ^ Z.of_nat f -> (1 <= f)%nat ->
  (length (decimal_aux f n []) <= S w)%nat /\
  repeat "0"%char (S w - length (decimal_aux f n [])) ++ decimal_aux f n []
  = fixed (S w) n.
Proof.
  induction w as [|w IH]; intros f n Hn Hf Hf1.
  - destruct f as [|f]; [lia|]. simpl.
    change (10 ^ Z.of_nat 1) with 10 in Hn.
    assert (n / 10 = 0) as -> by (apply Z.div_small; lia).
    simpl. split; [lia|reflexivity].
  - destruct f as [|f]; [lia|].
    cbn [decimal_aux fixed].
    destruct (n / 10 =? 0) eqn:E.
    + apply Z.eqb_eq in E. rewrite E.
      cbn [length]. split; [lia|].
      replace (S (S w) - 1)%nat with (S w) by lia.
      rewrite <- (fixed_zero (S w)). cbn [fixed]. change (0 / 10) with 0.
      reflexivity.
    + apply Z.eqb_neq in E.
      assert (0 <= n / 10) by (apply Z.div_pos; lia).
      assert (Hlt : n / 10 < 10 ^ Z.of_nat (S w)).
      { apply Z.div_lt_upper_bound; [lia|].
        replace (Z.of_nat (S (S w))) with (Z.succ (Z.of_nat (S w))) in Hn by lia.
        rewrite Z.pow_succ_r in Hn by lia. lia. }
      assert (10 <= n).
      { destruct (Z_lt_le_dec n 10) as [Hs|]; [|assumption].
        exfalso. apply E. apply Z.div_small. lia. }
      assert (Hf' : (1 <= f)%nat).
      { destruct f; [|lia]. change (2 ^ Z.of_nat 1) with 2 in Hf. lia. }
      assert (Hp : n / 10 < 2 ^ Z.of_nat f).
      { apply Z.div_lt_upper_bound; [lia|].
        replace (Z.of_nat (S f)) with (Z.succ (Z.of_nat f)) in Hf by lia.
        rewrite Z.pow_succ_r in Hf by lia. lia. }
      destruct (IH f (n / 10) (conj H Hlt) Hp Hf') as [Hlen Heq].
      rewrite decimal_aux_app. rewrite length_app. cbn [length].
      split; [lia|].
      replace (S (S w) - (length (decimal_aux f (n / 10) []) + 1))%nat
        with (S w - length (decimal_aux f (n / 10) []))%nat by lia.
      rewrite app_assoc, Heq. reflexivity.
Qed.

Lemma pad_d_fixed (w : nat) (n : Z) :
  (1 <= w)%nat -> 0 <= n < 10 ^ Z.of_nat w -> pad_d w n = fixed w n.
Proof.
  intros Hw Hn. destruct w as [|w]; [lia|].
  unfold pad_d, decimal.
  apply decimal_aux_fixed; [assumption| |lia].
  destruct (Z.eq_dec n 0) as [->|Hne]; [reflexivity|].
  replace (Z.of_nat (S (Z.to_nat (Z.log2 n)))) with (Z.succ (Z.log2 n)).
  - apply Z.log2_spec. lia.
  - pose proof (Z.log2_nonneg n). lia.
Qed.

End DecimalOutput.

(** ** Reading back what [isoformat] wrote *)
Section TimestampReader.
Local Open Scope Z_scope.

Lemma digits_snoc (k : nat) : forall acc s,
  Iso8601.digits (S k) acc s =
  match Iso8601.digits k acc s with
  | Some (a, c :: s') =>
      match digit_val c with
      | Some d => Some (10 * a + d, s')
      | None => None
      end
  | _ => None
  end.
Proof.
  induction k as [|k IH]; intros acc s.
  - simpl. destruct s as [|c s]; [reflexivity|]. destruct (digit_val c); reflexivity.
  - change (Iso8601.digits (S (S k)) acc s) with
      (match s with
       | c :: s' => match digit_val c with
                    | Some d => Iso8601.digits (S k) (10 * acc + d) s'
                    | None => None
                    end
       | [] => None
       end).
    destruct s as [|c s]; [reflexivity|].
    destruct (digit_val c) as [d|] eqn:E.
    + rewrite IH. simpl. rewrite E. reflexivity.
    + simpl. rewrite E. reflexivity.
Qed.

Lemma digits_fixed (w : nat) : forall n acc rest,
  0 <= n < 10 ^ Z.of_nat w ->
  Iso8601.digits w acc (fixed w n ++ rest) = Some (acc * 10 ^ Z.of_nat w + n, rest).
Proof.
  induction w as [|w IH]; intros n acc rest Hn.
  - simpl. f_equal. f_equal. change (10 ^ Z.of_nat 0) with 1 in *. lia.
  - rewrite digits_snoc. cbn [fixed]. rewrite <- app_assoc. cbn [app].
    replace (Z.of_nat (S w)) with (Z.succ (Z.of_nat w)) in * by lia.
    rewrite Z.pow_succ_r in * by lia.
    rewrite IH.
    + rewrite digit_val_digit_char by (apply Z.mod_pos_bound; lia).
      f_equal. f_equal.
      pose proof (Z.div_mod n 10 ltac:(lia)). lia.
    + split; [apply Z.div_pos; lia|apply Z.div_lt_upper_bound; lia].
Qed.

Lemma digits_fixed0 (w : nat) (n : Z) (rest : list ascii) :
  0 <= n < 10 ^ Z.of_nat w ->
  Iso8601.digits w 0 (fixed w n ++ rest) = Some (n, rest).
Proof. intros H. rewrite digits_fixed by assumption. reflexivity. Qed.

Lemma fraction_digits (k : nat) : forall acc s v s',
  Iso8601.digits k acc s = Some (v, s') -> Iso8601.fraction k acc s = (v, s').
Proof.
  induction k as [|k IH]; intros acc s v s' H; simpl in *.
  - congruence.
  - destruct s as [|c s]; [discriminate|].
    destruct (digit_val c); [|discriminate]. apply IH, H.
Qed.

Lemma days_in_month_le (y m : Z) : days_in_month y m <= 31.
Proof.
  unfold days_in_month. destruct (is_leap y);
  repeat match goal with
         | |- context [match ?x with _ => _ end] => destruct x
         end; lia.
Qed.

Lemma dt_valid_spec (d : datetime) :
  dt_valid d = true <->
  (1 <= year d <= 9999) /\ (1 <= month d <= 12) /\
  (1 <= day d <= days_in_month (year d) (month d)) /\
  (0 <= hour d < 24) /\ (0 <= minute d < 60) /\ (0 <= second d < 60) /\
  (0 <= microsecond d < 1000000).
Proof.
  unfold dt_valid.
  rewrite !andb_true_iff, !Z.leb_le, !Z.ltb_lt. tauto.
Qed.

Lemma fraction_fixed6 (us : Z) :
  0 < us < 1000000 ->
  Iso8601.opt_fraction ("."%char :: fixed 6 us) = Some (us, []).
Proof.
  intros H.
  assert (E : fixed 6 us = fixed 6 us ++ []) by (rewrite app_nil_r; reflexivity).
  pose proof (digits_fixed0 6 us [] ltac:(change (10 ^ Z.of_nat 6) with 1000000; lia)) as D.
  rewrite <- E in D. clear E.
  cbn [fixed app] in *.
  unfold Iso8601.opt_fraction.
  cbn [Iso8601.digits] in D.
  destruct (digit_val _) as [d5|]; [|discriminate].
  f_equal. apply fraction_digits.
  replace (10 * 0 + d5) with d5 in D by lia.
  exact D.
Qed.

Lemma parse_isoformat_chars (d : datetime) :
  dt_valid d = true ->
  Iso8601.parse_chars (isoformat_chars d) = Some (d, None).
Proof.
  intros V. pose proof V as V'. apply dt_valid_spec in V'.
  destruct V' as (Hy & Hmo & Hd & Hh & Hmi & Hs & Hus).
  pose proof (days_in_month_le (year d) (month d)) as Hdim.
  unfold isoformat_chars.
  rewrite (pad_d_fixed 4), !(pad_d_fixed 2)
    by first [lia | change (10 ^ Z.of_nat 4) with 10000; lia
                  | change (10 ^ Z.of_nat 2) with 100; lia].
  unfold Iso8601.parse_chars.
  rewrite digits_fixed0 by (change (10 ^ Z.of_nat 4) with 10000; lia).
  cbn [mbind option_bind Iso8601.expect Ascii.eqb Bool.eqb].
  repeat (rewrite digits_fixed0 by (change (10 ^ Z.of_nat 2) with 100; lia);
          cbn [mbind option_bind Iso8601.expect Ascii.eqb Bool.eqb]).
  assert (F : Iso8601.opt_fraction
                (if microsecond d =? 0 then []
                 else "."%char :: pad_d 6 (microsecond d))
              = Some (microsecond d, [])).
  { destruct (microsecond d =? 0) eqn:E.
    - apply Z.eqb_eq in E. rewrite E. reflexivity.
    - apply Z.eqb_neq in E.
      rewrite (pad_d_fixed 6) by first [lia | change (10 ^ Z.of_nat 6) with 1000000; lia].
      apply fraction_fixed6. lia. }
  rewrite F. cbn [mbind option_bind Iso8601.zone].
  destruct d; cbn in *. rewrite V. reflexivity.
Qed.

Lemma parse_isoformat (d : datetime) :
  dt_valid d = true -> Iso8601.parse (isoformat d) = Some (d, None).
Proof.
  intros V. unfold Iso8601.parse, isoformat.
  rewrite list_ascii_of_string_of_list_ascii. apply parse_isoformat_chars, V.
Qed.

End TimestampReader.

(** ** The order of timestamps is the order of the clock readings *)
Section TimestampOrder.
Local Open Scope Z_scope.

Lemma chars_leb_fixed (w : nat) : forall a b r1 r2,
  0 <= a < 10 ^ Z.of_nat w -> 0 <= b < 10 ^ Z.of_nat w ->
  chars_leb (fixed w a ++ r1) (fixed w b ++ r2)
  = (a <? b) || ((a =? b) && chars_leb r1 r2).
Proof.
  induction w as [|w IH]; intros a b r1 r2 Ha Hb.
  - change (10 ^ Z.of_nat 0) with 1 in *.
    assert (a = 0) as -> by lia. assert (b = 0) as -> by lia. reflexivity.
  - replace (Z.of_nat (S w)) with (Z.succ (Z.of_nat w)) in * by lia.
    rewrite Z.pow_succ_r in * by lia.
    cbn [fixed]. rewrite <- !app_assoc. cbn [app].
    rewrite IH by (split; [apply Z.div_pos; lia|apply Z.div_lt_upper_bound; lia]).
    cbn [chars_leb].
    pose proof (Z.mod_pos_bound a 10 ltac:(lia)) as Hra.
    pose proof (Z.mod_pos_bound b 10 ltac:(lia)) as Hrb.
    pose proof (nat_of_ascii_digit_char _ Hra) as Na.
    pose proof (nat_of_ascii_digit_char _ Hrb) as Nb.
    pose proof (Z.div_mod a 10 ltac:(lia)) as Da.
    pose proof (Z.div_mod b 10 ltac:(lia)) as Db.
    destruct (Z.ltb_spec (a / 10) (b / 10)), (Z.eqb_spec (a / 10) (b / 10)),
      (Nat.ltb_spec (nat_of_ascii (digit_char (a mod 10)))
                    (nat_of_ascii (digit_char (b mod 10)))),
      (Nat.eqb_spec (nat_of_ascii (digit_char (a mod 10)))
                    (nat_of_ascii (digit_char (b mod 10)))),
      (Z.ltb_spec a b), (Z.eqb_spec a b);
      cbn [orb andb]; try reflexivity; try lia.
Qed.

Lemma chars_leb_cons (c : ascii) (r1 r2 : list ascii) :
  chars_leb (c :: r1) (c :: r2) = chars_leb r1 r2.
Proof.
  cbn [chars_leb]. rewrite Nat.ltb_irrefl, Nat.eqb_refl. reflexivity.
Qed.

Lemma chars_leb_isoformat (d1 d2 : datetime) :
  dt_valid d1 = true -> dt_valid d2 = true ->
  chars_leb (isoformat_chars d1) (isoformat_chars d2) = dt_leb d1 d2.
Proof.
  intros V1 V2.
  apply dt_valid_spec in V1, V2.
  destruct V1 as (Hy1 & Hmo1 & Hd1 & Hh1 & Hmi1 & Hs1 & Hus1).
  destruct V2 as (Hy2 & Hmo2 & Hd2 & Hh2 & Hmi2 & Hs2 & Hus2).
  pose proof (days_in_month_le (year d1) (month d1)).
  pose proof (days_in_month_le (year d2) (month d2)).
  unfold isoformat_chars, dt_leb, dt_key.
  rewrite !(pad_d_fixed 4), !(pad_d_fixed 2)
    by first [lia | change (10 ^ Z.of_nat 4) with 10000; lia
                  | change (10 ^ Z.of_nat 2) with 100; lia].
  cbn [lex_leb].
  rewrite chars_leb_fixed by (change (10 ^ Z.of_nat 4) with 10000; lia).
  rewrite chars_leb_cons.
  do 4 (rewrite chars_leb_fixed by (change (10 ^ Z.of_nat 2) with 100; lia);
        rewrite chars_leb_cons).
  rewrite chars_leb_fixed by (change (10 ^ Z.of_nat 2) with 100; lia).
  do 6 f_equal.
  destruct (Z.eqb_spec (microsecond d1) 0) as [E1|E1],
           (Z.eqb_spec (microsecond d2) 0) as [E2|E2].
  - rewrite E1, E2. reflexivity.
  - rewrite E1. cbn [chars_leb].
    destruct (Z.ltb_spec 0 (microsecond d2)); [reflexivity|lia].
  - rewrite E2. cbn [chars_leb].
    destruct (Z.ltb_spec (microsecond d1) 0), (Z.eqb_spec (microsecond d1) 0);
      try lia; reflexivity.
  - rewrite chars_leb_cons.
    rewrite !(pad_d_fixed 6) by first [lia | change (10 ^ Z.of_nat 6) with 1000000; lia].
    rewrite <- (app_nil_r (fixed 6 (microsecond d1))).
    rewrite <- (app_nil_r (fixed 6 (microsecond d2))).
    rewrite chars_leb_fixed by (change (10 ^ Z.of_nat 6) with 1000000; lia).
    reflexivity.
Qed.

Lemma str_leb_isoformat (d1 d2 : datetime) :
  dt_valid d1 = true -> dt_valid d2 = true ->
  str_leb (isoformat d1) (isoformat d2) = dt_leb d1 d2.
Proof.
  intros V1 V2. unfold str_leb, isoformat.
  rewrite !list_ascii_of_string_of_list_ascii. apply chars_leb_isoformat; assumption.
Qed.

End TimestampOrder.

(** ** [int(str(n)) == n] *)
Section IntLiteral.
Local Open Scope Z_scope.
















End IntLiteral.

(** ** The application object after the module has been loaded *)
Section Application.
Import Flask App.

Lemma run_url_map h p d :
  url_map (srv_app (run app h p d)) =
  [mk_rule (PathUnder "/static/" "filename") "static" default_methods;
   mk_rule (Exact "/") "index" default_methods;
   mk_rule (Exact "/health") "health_check" default_methods].
Proof. reflexivity. Qed.

Lemma run_view_index h p d :
  view_functions (srv_app (run app h p d)) !! "index" = Some index.
Proof. reflexivity. Qed.

Lemma run_view_health h p d :
  view_functions (srv_app (run app h p d)) !! "health_check" = Some health_check.
Proof. reflexivity. Qed.

Lemma run_view_static h p d :
  view_functions (srv_app (run app h p d)) !! "static" = Some send_static_file.
Proof. reflexivity. Qed.

Lemma run_handlers h p d :
  error_handler_spec (srv_app (run app h p d)) = error_handler_spec app.
Proof. reflexivity. Qed.

Lemma app_handler_404 : error_handler_spec app !! 404%nat = Some not_found.
Proof. reflexivity. Qed.

Lemma app_handler_500 : error_handler_spec app !! 500%nat = Some internal_error.
Proof. reflexivity. Qed.

Lemma app_handler_other (code : nat) :
  code <> 404%nat -> code <> 500%nat -> error_handler_spec app !! code = None.
Proof.
  intros H4 H5. unfold app, errorhandler, route, config_set, new_app.
  cbn [error_handler_spec].
  rewrite !lookup_insert_ne by congruence. apply lookup_empty.
Qed.

Lemma run_propagate h p d : propagate_exceptions (srv_app (run app h p d)) = d.
Proof. destruct d; reflexivity. Qed.

Lemma run_max_content_length h p d :
  max_content_length (srv_app (run app h p d)) = Some 16777216%Z.
Proof. destruct d; reflexivity. Qed.

Lemma strip_prefix_spec (prefix : string) : forall s rest,
  strip_prefix prefix s = Some rest -> s = prefix +:+ rest.
Proof.
  induction prefix as [|a prefix IH]; intros s rest H; simpl in *.
  - injection H as ->. reflexivity.
  - destruct s as [|b s]; [discriminate|].
    destruct (Ascii.eqb_spec a b) as [->|]; [|discriminate].
    change (String b s = String b (prefix +:+ rest)). f_equal. apply IH, H.
Qed.

Lemma static_rule_no_match (pp : string) :
  (forall f, f <> "" -> pp <> "/static/" +:+ f) ->
  rule_matches (mk_rule (PathUnder "/static/" "filename") "static" default_methods) pp = None.
Proof.
  intros H. unfold rule_matches. cbn [pattern].
  destruct (strip_prefix "/static/" pp) as [rest|] eqn:E; [|reflexivity].
  apply strip_prefix_spec in E.
  destruct rest as [|c rest]; [reflexivity|].
  exfalso. apply (H (String c rest)); [discriminate|exact E].
Qed.

Lemma strip_prefix_app (prefix rest : string) :
  strip_prefix prefix (prefix +:+ rest) = Some rest.
Proof.
  induction prefix as [|a prefix IH]; [reflexivity|].
  change (String a prefix +:+ rest) with (String a (prefix +:+ rest)).
  cbn [strip_prefix]. rewrite Ascii.eqb_refl. exact IH.
Qed.

Lemma match_unmatched h p d req :
  path_part (path req) <> "/" -> path_part (path req) <> "/health" ->
  (forall f, f <> "" -> path_part (path req) <> "/static/" +:+ f) ->
  match_request (srv_app (run app h p d)) req = Raise (HTTPException 404).
Proof.
  intros H1 H2 H3. unfold match_request. rewrite run_url_map.
  cbn [match_rules]. rewrite static_rule_no_match by assumption.
  unfold rule_matches. cbn [pattern].
  apply String.eqb_neq in H1, H2. rewrite H1, H2. reflexivity.
Qed.

Lemma match_method_not_allowed h p d req :
  path req = "/" \/ path req = "/health" ->
  method req <> "GET" -> method req <> "HEAD" -> method req <> "OPTIONS" ->
  match_request (srv_app (run app h p d)) req = Raise (HTTPException 405).
Proof.
  intros Hp Hg Hh Ho. unfold match_request. rewrite run_url_map.
  apply String.eqb_neq in Hg, Hh, Ho.
  destruct req as [m pth cl]. cbn [path method] in *.
  destruct Hp as [-> | ->]; cbn; rewrite Hg, Hh, Ho; reflexivity.
Qed.

(** X7.  A GET below [/static/] whose name, once normalised, is no file of
    the static folder (or would leave the folder) ends in the module's 404
    handler as well: status 404 and the JSON body
    [{"error": "Not found"}]. *)
Lemma static_file_missing h p d env (f : string) (cl : Z) :
  path_arg_ok f = true -> static_file env f = None ->
  serve (run app h p d) env (mk_request "GET" ("/static/" +:+ f) cl)
  = mk_response 404 "application/json" (BJson (JObj [("error", JStr "Not found")])).
Proof.
  intros Hf Hnone.
  unfold serve, wsgi_app, full_dispatch_request, dispatch_request, match_request.
  rewrite run_url_map. cbn [match_rules path method].
  change (path_part ("/static/" +:+ f)) with ("/static/" +:+ f).
  unfold rule_matches at 1. cbn [pattern].
  rewrite strip_prefix_app, Hf.
  cbn [method_allowed methods default_methods existsb String.eqb Ascii.eqb
       Bool.eqb orb bind endpoint].
  rewrite run_view_static. cbn [send_static_file]. rewrite Hnone.
  cbn [handle_user_exception]. unfold handle_http_exception, find_error_handler.
  rewrite run_handlers, app_handler_404. reflexivity.
Qed.

Lemma send_not_head (req : Request) (r : Response) :
  method req <> "HEAD" -> send req r = r.
Proof. intros H. unfold send. apply String.eqb_neq in H. rewrite H. reflexivity. Qed.

Lemma send_head (req : Request) (r : Response) :
  method req = "HEAD" -> send req r = mk_response (status r) (mimetype r) BEmpty.
Proof. intros H. unfold send. rewrite H. reflexivity. Qed.

Lemma status_send (req : Request) (r : Response) : status (send req r) = status r.
Proof. unfold send. destruct (String.eqb (method req) "HEAD"); reflexivity. Qed.

(** What the server answers, read off the dispatch. *)
Lemma serve_of_dispatch h p d env req :
  serve (run app h p d) env req =
  match full_dispatch_request (srv_app (run app h p d)) env req with
  | Return r => send req r
  | Raise e =>
      if d then mk_response 500 "text/html" (BDebugger e)
      else send req (mk_response 500 "application/json"
                       (BJson (JObj [("error", JStr "Internal server error")])))
  end.
Proof.
  unfold serve, wsgi_app.
  destruct (full_dispatch_request (srv_app (run app h p d)) env req) as [r|e];
    [reflexivity|].
  unfold handle_exception. rewrite run_propagate. destruct d; reflexivity.
Qed.

Lemma logged_of_dispatch h p d env req :
  logged (wsgi_app (srv_app (run app h p d)) env req) =
  match full_dispatch_request (srv_app (run app h p d)) env req with
  | Return _ => []
  | Raise e => if d then [] else [e]
  end.
Proof.
  unfold wsgi_app.
  destruct (full_dispatch_request (srv_app (run app h p d)) env req) as [r|e];
    [reflexivity|].
  unfold handle_exception. rewrite run_propagate. destruct d; reflexivity.
Qed.

Lemma main_spec (environ : gmap string string) (srv : Server) :
  main environ = Return srv ->
  exists n,
    int (environ_get_default environ "PORT" (VInt 8082)) = Return n /\
    srv = run app "0.0.0.0" n
            (py_eq (environ_get environ "FLASK_ENV") (VStr "development")).
Proof.
  unfold main. destruct (int _) as [n|e]; cbn [bind]; intros H; [|discriminate].
  exists n. split; [reflexivity|congruence].
Qed.

Lemma flask_env_development (environ : gmap string string) :
  py_eq (environ_get environ "FLASK_ENV") (VStr "development") = true <->
  environ !! "FLASK_ENV" = Some "development".
Proof.
  unfold environ_get. destruct (environ !! "FLASK_ENV") as [s|]; cbn [py_eq].
  - rewrite String.eqb_eq. split; congruence.
  - split; discriminate.
Qed.

Lemma run_debug_flag h p d : config_flag (srv_app (run app h p d)) "DEBUG" = d.
Proof. destruct d; reflexivity. Qed.


End Application.

(** * The claims *)
Section Claims.
Import Flask App.

(** C1.  For every GET request to [/health], under any host, port and
    debug setting, the response has status 200 and a JSON body; its
    [status] member is the string [healthy]; its [timestamp] member reads
    as an ISO-8601 date and time whose fields are exactly the UTC clock
    value observed during this very call, so it is computed per call.  The
    string carries no zone designator. *)
Theorem health_check_response (h : string) (p : Z) (d : bool)
    (env : Env) (req : Request) :
  method req = "GET" -> path req = "/health" -> dt_valid (utcnow env) = true ->
  exists j ts,
    serve (run app h p d) env req = mk_response 200 "application/json" (BJson j) /\
    json_get j "status" = Some (JStr "healthy") /\
    json_get j "timestamp" = Some (JStr ts) /\
    Iso8601.parse ts = Some (utcnow env, None).
Proof.
  intros Hm Hp V. destruct req as [m pth cl]. cbn in Hm, Hp. subst m pth.
  exists (JObj [("status", JStr "healthy");
                ("timestamp", JStr (isoformat (utcnow env)))]).
  exists (isoformat (utcnow env)).
  split; [reflexivity|]. split; [reflexivity|]. split; [reflexivity|].
  apply parse_isoformat, V.
Qed.

Lemma health_check_response_witness :
  exists j ts,
    serve (run app "0.0.0.0" 8082 false) deployed (mk_request "GET" "/health" 0)
    = mk_response 200 "application/json" (BJson j) /\
    json_get j "status" = Some (JStr "healthy") /\
    json_get j "timestamp" = Some (JStr ts) /\
    Iso8601.parse ts = Some (utcnow deployed, None).
Proof.
  apply (health_check_response "0.0.0.0" 8082%Z false deployed
           (mk_request "GET" "/health" 0)); reflexivity.
Defined.

(** C2, as the code has it.  A request with a non-empty path that, once
    its leading slashes are collapsed into one, is neither [/] nor
    [/health] nor of the form [/static/<name>] with a non-empty name, gets
    status 404 and a JSON content type, whatever its method; the body is
    the JSON object [{"error": "Not found"}], except for HEAD, which is
    answered without a body.  (The empty path is left aside: a request
    target always begins with a slash, and the URL map answers an empty
    [PATH_INFO] with a redirect to [/], which [match_rules] does not
    describe.) *)
Theorem not_found_for_unmatched_path (h : string) (p : Z) (d : bool)
    (env : Env) (req : Request) :
  path req <> "" ->
  path_part (path req) <> "/" -> path_part (path req) <> "/health" ->
  (forall f, f <> "" -> path_part (path req) <> "/static/" +:+ f) ->
  (method req <> "HEAD" ->
   serve (run app h p d) env req
   = mk_response 404 "application/json" (BJson (JObj [("error", JStr "Not found")]))) /\
  (method req = "HEAD" ->
   serve (run app h p d) env req = mk_response 404 "application/json" BEmpty).
Proof.
  intros _ H1 H2 H3.
  assert (F : full_dispatch_request (srv_app (run app h p d)) env req
              = Return (mk_response 404 "application/json"
                          (BJson (JObj [("error", JStr "Not found")])))).
  { unfold full_dispatch_request, dispatch_request.
    rewrite match_unmatched by assumption.
    cbn [bind handle_user_exception]. unfold handle_http_exception, find_error_handler.
    rewrite run_handlers, app_handler_404. reflexivity. }
  rewrite serve_of_dispatch, F. split; intros Hm.
  - apply send_not_head, Hm.
  - rewrite send_head by assumption. reflexivity.
Qed.

Lemma not_found_for_unmatched_path_witness :
  serve production deployed (mk_request "PUT" "/api/x" 0)
  = mk_response 404 "application/json" (BJson (JObj [("error", JStr "Not found")])) /\
  serve production deployed (mk_request "HEAD" "/api/x" 0)
  = mk_response 404 "application/json" BEmpty.
Proof.
  split.
  - apply (not_found_for_unmatched_path "0.0.0.0" 8082%Z false deployed
             (mk_request "PUT" "/api/x" 0)).
    + discriminate.
    + discriminate.
    + discriminate.
    + intros f _ H. discriminate H.
    + discriminate.
  - apply (not_found_for_unmatched_path "0.0.0.0" 8082%Z false deployed
             (mk_request "HEAD" "/api/x" 0)).
    + discriminate.
    + discriminate.
    + discriminate.
    + intros f _ H. discriminate H.
    + reflexivity.
Defined.

(** C2 fails as stated: [/static/app.js] is neither [/] nor [/health],
    yet a POST to it is answered 405 by the static route that
    [Flask(__name__)] registers, not 404. *)
Lemma not_found_static_counterexample :
  let req := mk_request "POST" "/static/app.js" 0 in
  path req <> "/" /\ path req <> "/health" /\
  serve production deployed req = mk_response 405 "text/html" (BErrorPage 405) /\
  status (serve production deployed req) <> 404%nat.
Proof.
  split; [discriminate|]. split; [discriminate|].
  split; [reflexivity|discriminate].
Qed.

(** C3, as the code has it.  When exceptions do not propagate (debug mode
    off), every request whose handling raises an exception that leaves
    the dispatch is answered with status 500 and a JSON content type, and
    the exception is logged; the body is the JSON object
    [{"error": "Internal server error"}], except for HEAD, which is
    answered without a body.  This holds for any views behind the
    module's 500 handler, so also for a view that is made to fail. *)
Theorem internal_error_in_production (a : Flask.App) (h : string) (p : Z)
    (dbg : bool) (env : Env) (req : Request) (e : exn) :
  error_handler_spec a !! 500%nat = Some internal_error ->
  propagate_exceptions a = false ->
  full_dispatch_request a env req = Raise e ->
  (method req <> "HEAD" ->
   serve (mk_server a h p dbg) env req
   = mk_response 500 "application/json"
       (BJson (JObj [("error", JStr "Internal server error")]))) /\
  (method req = "HEAD" ->
   serve (mk_server a h p dbg) env req = mk_response 500 "application/json" BEmpty) /\
  logged (wsgi_app a env req) = [e].
Proof.
  intros H5 Hp Hf. unfold serve, wsgi_app. cbn [srv_app]. rewrite Hf.
  unfold handle_exception. rewrite Hp. cbn [outcome logged find_error_handler].
  rewrite H5. cbn [internal_error bind make_response outcome mimetype body].
  split; [|split].
  - intros Hm. apply send_not_head, Hm.
  - intros Hm. rewrite send_head by assumption. reflexivity.
  - reflexivity.
Qed.

Lemma internal_error_in_production_witness :
  serve (mk_server (srv_app production) "0.0.0.0" 8082 false) no_templates
    (mk_request "GET" "/" 0)
  = mk_response 500 "application/json"
      (BJson (JObj [("error", JStr "Internal server error")])) /\
  serve (mk_server (srv_app production) "0.0.0.0" 8082 false) no_templates
    (mk_request "HEAD" "/" 0)
  = mk_response 500 "application/json" BEmpty /\
  logged (wsgi_app (srv_app production) no_templates (mk_request "GET" "/" 0))
  = [TemplateNotFound "index.html"].
Proof.
  pose proof (internal_error_in_production (srv_app production) "0.0.0.0" 8082%Z false
                no_templates (mk_request "GET" "/" 0) (TemplateNotFound "index.html")
                eq_refl eq_refl eq_refl) as (G & _ & L).
  pose proof (internal_error_in_production (srv_app production) "0.0.0.0" 8082%Z false
                no_templates (mk_request "HEAD" "/" 0) (TemplateNotFound "index.html")
                eq_refl eq_refl eq_refl) as (_ & H & _).
  split; [apply G; discriminate|]. split; [apply H; reflexivity|exact L].
Defined.

(** C3 fails as stated: started with [FLASK_ENV=development], a GET for
    [/] with the template missing raises [TemplateNotFound], and the
    answer is the debugger page, not the JSON body. *)
Lemma internal_error_debug_counterexample :
  main (<["FLASK_ENV" := "development"]> ∅) = Return development /\
  full_dispatch_request (srv_app development) no_templates (mk_request "GET" "/" 0)
  = Raise (TemplateNotFound "index.html") /\
  serve development no_templates (mk_request "GET" "/" 0)
  = mk_response 500 "text/html" (BDebugger (TemplateNotFound "index.html")) /\
  body (serve development no_templates (mk_request "GET" "/" 0))
  <> BJson (JObj [("error", JStr "Internal server error")]).
Proof.
  split; [reflexivity|]. split; [reflexivity|].
  split; [reflexivity|discriminate].
Qed.

(** C4, as the code has it.  The limit is fixed when the module is loaded,
    at [16 * 1024 * 1024 = 16777216] bytes.  It is applied where the body
    of a request is read ([get_data] raises 413 above it); no handler of
    the module reads the body, so the announced body size changes neither
    the response nor the log: a request above the limit is routed and
    answered like the same request below it. *)
Theorem content_length_not_inspected (h : string) (p : Z) (d : bool)
    (env : Env) (req : Request) (n : Z) :
  max_content_length (srv_app (run app h p d)) = Some (16 * 1024 * 1024)%Z /\
  (16 * 1024 * 1024 = 16777216)%Z /\
  ((16 * 1024 * 1024 < content_length req)%Z ->
   get_data (srv_app (run app h p d)) req = Raise (HTTPException 413)) /\
  wsgi_app (srv_app (run app h p d)) env (mk_request (method req) (path req) n)
  = wsgi_app (srv_app (run app h p d)) env req /\
  serve (run app h p d) env (mk_request (method req) (path req) n)
  = serve (run app h p d) env req.
Proof.
  split; [apply run_max_content_length|]. split; [reflexivity|].
  split.
  { intros H. unfold get_data. rewrite run_max_content_length.
    apply Z.ltb_lt in H. change (16 * 1024 * 1024)%Z with 16777216%Z in H.
    rewrite H. reflexivity. }
  assert (F : full_dispatch_request (srv_app (run app h p d)) env
                (mk_request (method req) (path req) n)
              = full_dispatch_request (srv_app (run app h p d)) env req).
  { unfold full_dispatch_request, dispatch_request, match_request.
    rewrite run_url_map. cbn [match_rules path method].
    repeat match goal with
    | |- context [rule_matches ?r ?x] => destruct (rule_matches r x)
    | |- context [method_allowed ?r ?x] => destruct (method_allowed r x)
    | |- context [String.eqb ?a ?b] => destruct (String.eqb a b)
    end;
    cbn [bind endpoint];
    rewrite ?run_view_static, ?run_view_index, ?run_view_health;
    reflexivity. }
  assert (W : wsgi_app (srv_app (run app h p d)) env
                (mk_request (method req) (path req) n)
              = wsgi_app (srv_app (run app h p d)) env req).
  { unfold wsgi_app, send. cbn [method]. rewrite F. reflexivity. }
  split; [exact W|]. unfold serve, send. cbn [srv_app method] in *.
  rewrite W. reflexivity.
Qed.

Lemma content_length_not_inspected_witness :
  get_data (srv_app production) (mk_request "GET" "/health" 16777217)
  = Raise (HTTPException 413) /\
  serve production deployed (mk_request "GET" "/health" 0)
  = serve production deployed (mk_request "GET" "/health" 16777217).
Proof.
  pose proof (content_length_not_inspected "0.0.0.0" 8082%Z false deployed
                (mk_request "GET" "/health" 16777217) 0%Z) as (_ & _ & G & _ & S).
  split; [apply G; reflexivity|exact S].
Defined.

(** C4 fails as stated: a GET for [/health] announcing one byte more than
    16 MiB is not rejected; [health_check] runs and its answer is sent. *)
Lemma oversized_request_counterexample :
  let req := mk_request "GET" "/health" (16 * 1024 * 1024 + 1) in
  (16 * 1024 * 1024 < content_length req)%Z /\
  dispatch_request (srv_app production) deployed req = health_check deployed req [] /\
  serve production deployed req
  = mk_response 200 "application/json"
      (BJson (JObj [("status", JStr "healthy");
                    ("timestamp", JStr "2024-03-09T07:05:01.000250")])).
Proof.
  split; [reflexivity|]. split; reflexivity.
Qed.




(** C6, as the code has it.  The timestamp is the wall-clock reading of
    the call.  For two GET requests to [/health] served by the same
    process, if the reading of the later call is not before the reading of
    the earlier one, then the later timestamp is greater than or equal to
    the earlier one, both as a string and as the date and time it reads
    as. *)
Theorem timestamps_follow_clock (h : string) (p : Z) (d : bool)
    (env1 env2 : Env) (req1 req2 : Request) :
  method req1 = "GET" -> path req1 = "/health" ->
  method req2 = "GET" -> path req2 = "/health" ->
  dt_valid (utcnow env1) = true -> dt_valid (utcnow env2) = true ->
  dt_leb (utcnow env1) (utcnow env2) = true ->
  exists ts1 ts2,
    timestamp_of (serve (run app h p d) env1 req1) = Some ts1 /\
    timestamp_of (serve (run app h p d) env2 req2) = Some ts2 /\
    str_leb ts1 ts2 = true /\
    Iso8601.parse ts1 = Some (utcnow env1, None) /\
    Iso8601.parse ts2 = Some (utcnow env2, None).
Proof.
  intros Hm1 Hp1 Hm2 Hp2 V1 V2 L.
  destruct req1 as [m1 p1 c1], req2 as [m2 p2 c2]. cbn in Hm1, Hp1, Hm2, Hp2. subst.
  exists (isoformat (utcnow env1)), (isoformat (utcnow env2)).
  split; [reflexivity|]. split; [reflexivity|].
  split; [rewrite str_leb_isoformat by assumption; exact L|].
  split; apply parse_isoformat; assumption.
Qed.

Lemma timestamps_follow_clock_witness :
  exists ts1 ts2,
    timestamp_of (serve (run app "0.0.0.0" 8082 false) noon_00
                    (mk_request "GET" "/health" 0)) = Some ts1 /\
    timestamp_of (serve (run app "0.0.0.0" 8082 false) noon_01
                    (mk_request "GET" "/health" 0)) = Some ts2 /\
    str_leb ts1 ts2 = true /\
    Iso8601.parse ts1 = Some (utcnow noon_00, None) /\
    Iso8601.parse ts2 = Some (utcnow noon_01, None).
Proof.
  apply (timestamps_follow_clock "0.0.0.0" 8082%Z false noon_00 noon_01
           (mk_request "GET" "/health" 0) (mk_request "GET" "/health" 0));
    reflexivity.
Defined.

(** C6 fails as stated: [utcnow] reads the wall clock, which can be set
    back.  With 12:00:01 read at the first call and 12:00:00 at the
    second, the later timestamp is smaller than the earlier one. *)
Lemma timestamps_clock_set_back_counterexample :
  let req := mk_request "GET" "/health" 0 in
  dt_valid (utcnow noon_01) = true /\ dt_valid (utcnow noon_00) = true /\
  timestamp_of (serve production noon_01 req) = Some "2024-01-01T12:00:01" /\
  timestamp_of (serve production noon_00 req) = Some "2024-01-01T12:00:00" /\
  str_leb "2024-01-01T12:00:01" "2024-01-01T12:00:00" = false.
Proof.
  split; [reflexivity|]. split; [reflexivity|]. split; [reflexivity|].
  split; reflexivity.
Qed.

(** C7.  For every GET request to [/]: when the template [index.html] is
    there, the response has status 200, content type [text/html] and the
    page as its body, and nothing is logged; and the handling can only
    fail when that template is missing. *)
Theorem index_response (h : string) (p : Z) (d : bool) (env : Env) (req : Request) :
  method req = "GET" -> path req = "/" ->
  (forall page, templates env !! "index.html" = Some page ->
     serve (run app h p d) env req = mk_response 200 "text/html" (BText page) /\
     logged (wsgi_app (srv_app (run app h p d)) env req) = []) /\
  (forall e, full_dispatch_request (srv_app (run app h p d)) env req = Raise e ->
     templates env !! "index.html" = None).
Proof.
  intros Hm Hp. destruct req as [m pth cl]. cbn in Hm, Hp. subst m pth.
  assert (D : dispatch_request (srv_app (run app h p d)) env (mk_request "GET" "/" cl)
              = index env (mk_request "GET" "/" cl) []) by reflexivity.
  unfold serve, wsgi_app, full_dispatch_request. rewrite D.
  unfold index, render_template.
  split.
  - intros page ->. split; reflexivity.
  - intros e. destruct (templates env !! "index.html"); [discriminate|reflexivity].
Qed.

Lemma index_response_witness :
  serve (run app "0.0.0.0" 8082 false) deployed (mk_request "GET" "/" 0)
  = mk_response 200 "text/html" (BText "<!doctype html><title>redactor</title>") /\
  logged (wsgi_app (srv_app (run app "0.0.0.0" 8082 false)) deployed
            (mk_request "GET" "/" 0)) = [].
Proof.
  apply (proj1 (index_response "0.0.0.0" 8082%Z false deployed
                  (mk_request "GET" "/" 0) eq_refl eq_refl)).
  reflexivity.
Defined.

(** C8.  Whenever start-up succeeds, the server runs in debug mode if and
    only if the environment variable [FLASK_ENV] is set to exactly
    [development]; the debugger is on exactly in debug mode. *)
Theorem debug_iff_flask_env_development (environ : gmap string string)
    (srv : Server) :
  main environ = Return srv ->
  (config_flag (srv_app srv) "DEBUG" = true <->
   environ !! "FLASK_ENV" = Some "development") /\
  use_debugger srv = config_flag (srv_app srv) "DEBUG".
Proof.
  intros H. apply main_spec in H as (n & _ & ->).
  rewrite run_debug_flag. cbn [use_debugger run].
  split; [apply flask_env_development|reflexivity].
Qed.

Lemma debug_iff_flask_env_development_witness :
  (config_flag (srv_app development) "DEBUG" = true <->
   (<["FLASK_ENV" := "development"]> ∅ : gmap string string) !! "FLASK_ENV"
   = Some "development") /\
  use_debugger development = config_flag (srv_app development) "DEBUG".
Proof.
  apply (debug_iff_flask_env_development
           (<["FLASK_ENV" := "development"]> ∅) development).
  reflexivity.
Defined.

(** C9.  For every request to [/] or [/health] whose method is none of
    GET, HEAD and OPTIONS, URL matching itself raises 405, so no view is
    called; no handler is registered for 405, so [not_found] is not
    called either; the response has status 405, content type
    [text/html] and the framework's own page for 405 as its body, which
    is not the JSON object [{"error": "Not found"}]. *)
Theorem method_not_allowed_response (h : string) (p : Z) (d : bool)
    (env : Env) (req : Request) :
  path req = "/" \/ path req = "/health" ->
  method req <> "GET" -> method req <> "HEAD" -> method req <> "OPTIONS" ->
  match_request (srv_app (run app h p d)) req = Raise (HTTPException 405) /\
  find_error_handler (srv_app (run app h p d)) (HTTPException 405) = None /\
  serve (run app h p d) env req = mk_response 405 "text/html" (BErrorPage 405) /\
  status (serve (run app h p d) env req) = 405%nat /\
  body (serve (run app h p d) env req) <> BJson (JObj [("error", JStr "Not found")]).
Proof.
  intros Hp Hg Hh Ho.
  pose proof (match_method_not_allowed h p d req Hp Hg Hh Ho) as M.
  assert (F : find_error_handler (srv_app (run app h p d)) (HTTPException 405) = None).
  { unfold find_error_handler. rewrite run_handlers. apply app_handler_other; lia. }
  assert (S : serve (run app h p d) env req
              = mk_response 405 "text/html" (BErrorPage 405)).
  { rewrite serve_of_dispatch.
    unfold full_dispatch_request, dispatch_request.
    rewrite M. cbn [bind handle_user_exception]. unfold handle_http_exception.
    rewrite F. cbn [bind make_response]. apply send_not_head, Hh. }
  split; [exact M|]. split; [exact F|]. split; [exact S|].
  rewrite S. split; [reflexivity|discriminate].
Qed.

Lemma method_not_allowed_response_witness :
  match_request (srv_app production) (mk_request "POST" "/health" 0)
  = Raise (HTTPException 405) /\
  find_error_handler (srv_app production) (HTTPException 405) = None /\
  serve production deployed (mk_request "POST" "/health" 0)
  = mk_response 405 "text/html" (BErrorPage 405) /\
  status (serve production deployed (mk_request "POST" "/health" 0)) = 405%nat /\
  body (serve production deployed (mk_request "POST" "/health" 0))
  <> BJson (JObj [("error", JStr "Not found")]).
Proof.
  apply (method_not_allowed_response "0.0.0.0" 8082%Z false deployed
           (mk_request "POST" "/health" 0)).
  - right. reflexivity.
  - discriminate.
  - discriminate.
  - discriminate.
Defined.

(** C10.  When the server was started with [FLASK_ENV=development], a
    request whose handling raises an exception that leaves the dispatch is
    answered with the debugger page for that exception: the body is not
    the JSON object [{"error": "Internal server error"}], and the
    application logs nothing, for [internal_error] is not reached. *)
Theorem debugger_replaces_internal_error (environ : gmap string string)
    (srv : Server) (env : Env) (req : Request) (e : exn) :
  environ !! "FLASK_ENV" = Some "development" ->
  main environ = Return srv ->
  full_dispatch_request (srv_app srv) env req = Raise e ->
  serve srv env req = mk_response 500 "text/html" (BDebugger e) /\
  body (serve srv env req) <> BJson (JObj [("error", JStr "Internal server error")]) /\
  logged (wsgi_app (srv_app srv) env req) = [].
Proof.
  intros Hd Hm Hf. apply main_spec in Hm as (n & _ & ->).
  apply flask_env_development in Hd. rewrite Hd in *.
  assert (S : serve (run app "0.0.0.0" n true) env req
              = mk_response 500 "text/html" (BDebugger e)).
  { rewrite serve_of_dispatch, Hf. reflexivity. }
  split; [exact S|]. split; [rewrite S; discriminate|].
  rewrite logged_of_dispatch, Hf. reflexivity.
Qed.

Lemma debugger_replaces_internal_error_witness :
  serve development no_templates (mk_request "GET" "/" 0)
  = mk_response 500 "text/html" (BDebugger (TemplateNotFound "index.html")) /\
  body (serve development no_templates (mk_request "GET" "/" 0))
  <> BJson (JObj [("error", JStr "Internal server error")]) /\
  logged (wsgi_app (srv_app development) no_templates (mk_request "GET" "/" 0)) = [].
Proof.
  apply (debugger_replaces_internal_error (<["FLASK_ENV" := "development"]> ∅)
           development no_templates (mk_request "GET" "/" 0)
           (TemplateNotFound "index.html")); reflexivity.
Defined.

End Claims.

(** * Further properties of the module *)

(** ** The shape of a timestamp *)
Section TimestampShape.
Local Open Scope Z_scope.

Lemma length_string_of_list_ascii (l : list ascii) :
  String.length (string_of_list_ascii l) = length l.
Proof. induction l as [|c l IH]; cbn; [reflexivity|]. rewrite IH. reflexivity. Qed.

Lemma length_isoformat_chars (d : datetime) :
  dt_valid d = true ->
  length (isoformat_chars d) = if microsecond d =? 0 then 19%nat else 26%nat.
Proof.
  intros V. apply dt_valid_spec in V.
  destruct V as (Hy & Hmo & Hd & Hh & Hmi & Hs & Hus).
  pose proof (days_in_month_le (year d) (month d)).
  unfold isoformat_chars.
  rewrite (pad_d_fixed 4), !(pad_d_fixed 2)
    by first [lia | change (10 ^ Z.of_nat 4) with 10000; lia
                  | change (10 ^ Z.of_nat 2) with 100; lia].
  destruct (Z.eqb_spec (microsecond d) 0) as [E|E].
  - repeat (rewrite ?length_app, ?length_fixed; cbn [length]). reflexivity.
  - rewrite (pad_d_fixed 6) by first [lia | change (10 ^ Z.of_nat 6) with 1000000; lia].
    repeat (rewrite ?length_app, ?length_fixed; cbn [length]). reflexivity.
Qed.

Lemma isoformat_inj (d1 d2 : datetime) :
  dt_valid d1 = true -> dt_valid d2 = true ->
  isoformat d1 = isoformat d2 -> d1 = d2.
Proof.
  intros V1 V2 E.
  pose proof (parse_isoformat d1 V1) as P1.
  pose proof (parse_isoformat d2 V2) as P2.
  rewrite E in P1. congruence.
Qed.

End TimestampShape.

(** ** White space around an integer literal *)
Section IntWhiteSpace.

Lemma list_ascii_of_string_app (a b : string) :
  list_ascii_of_string (a +:+ b) = list_ascii_of_string a ++ list_ascii_of_string b.
Proof.
  induction a as [|c a IH]; [reflexivity|].
  change (String c a +:+ b) with (String c (a +:+ b)).
  cbn [list_ascii_of_string]. rewrite IH. reflexivity.
Qed.

Lemma lstrip_app_spaces (pre l : list ascii) :
  forallb is_space pre = true -> lstrip (pre ++ l) = lstrip l.
Proof.
  induction pre as [|c pre IH]; cbn [forallb]; intros H; [reflexivity|].
  apply andb_true_iff in H as [Hc Hp].
  change ((c :: pre) ++ l) with (c :: (pre ++ l)).
  cbn [lstrip]. rewrite Hc. apply IH, Hp.
Qed.

Lemma forallb_rev {A} (f : A -> bool) (l : list A) :
  forallb f (rev l) = forallb f l.
Proof.
  induction l as [|x l IH]; [reflexivity|].
  cbn [rev forallb]. rewrite forallb_app, IH. cbn [forallb].
  rewrite andb_true_r. apply andb_comm.
Qed.

Lemma strip_app_l (pre l : list ascii) :
  forallb is_space pre = true -> strip (pre ++ l) = strip l.
Proof. intros H. unfold strip. rewrite lstrip_app_spaces by assumption. reflexivity. Qed.

Lemma strip_app_r (l post : list ascii) :
  forallb is_space post = true -> strip (l ++ post) = strip l.
Proof.
  intros H. unfold strip.
  induction l as [|c l IH].
  - cbn [app]. rewrite <- (app_nil_r post), lstrip_app_spaces by assumption.
    reflexivity.
  - change ((c :: l) ++ post) with (c :: (l ++ post)). cbn [lstrip].
    destruct (is_space c); [exact IH|].
    change (c :: (l ++ post)) with ((c :: l) ++ post).
    rewrite rev_app_distr, lstrip_app_spaces by (rewrite forallb_rev; assumption).
    reflexivity.
Qed.

Lemma strip_blank (l : list ascii) : forallb is_space l = true -> strip l = [].
Proof.
  intros H. rewrite <- (app_nil_r l), strip_app_l by assumption. reflexivity.
Qed.

Lemma int_of_str_padded (pre s post : string) :
  padding pre = true -> padding post = true ->
  int_of_str (pre +:+ s +:+ post) = int_of_str s.
Proof.
  unfold padding, int_of_str. intros Hpre Hpost.
  rewrite !list_ascii_of_string_app, strip_app_l, strip_app_r by assumption.
  reflexivity.
Qed.

Lemma forallb_lstrip (f : ascii -> bool) (l : list ascii) :
  forallb f l = true -> forallb f (lstrip l) = true.
Proof.
  induction l as [|c l IH]; [reflexivity|].
  intros H. cbn [lstrip]. destruct (is_space c); [|exact H].
  cbn [forallb] in H. apply andb_true_iff in H as [_ H]. apply IH, H.
Qed.

Lemma forallb_strip (f : ascii -> bool) (l : list ascii) :
  forallb f l = true -> forallb f (strip l) = true.
Proof.
  intros H. unfold strip.
  rewrite forallb_rev. apply forallb_lstrip.
  rewrite forallb_rev. apply forallb_lstrip, H.
Qed.

(** No literal begins with a character of [str.isspace]: such a character
    is no sign, no digit and no underscore. *)
Lemma literal_after_space (c : ascii) (ds : list ascii) :
  is_unicode_space c = true ->
  match c :: ds with
  | "+"%char :: ds' => int_literal ds'
  | "-"%char :: ds' => Z.opp <$> int_literal ds'
  | ds' => int_literal ds'
  end = None.
Proof.
  intros H.
  destruct c as [[] [] [] [] [] [] [] []]; vm_compute in H; try discriminate H;
    reflexivity.
Qed.

Lemma int_of_str_blank (s : string) : blank s = true -> int_of_str s = None.
Proof.
  unfold blank, int_of_str. intros H.
  apply forallb_strip in H.
  destruct (strip (list_ascii_of_string s)) as [|c ds]; [reflexivity|].
  cbn [forallb] in H. apply andb_true_iff in H as [Hc _].
  apply literal_after_space, Hc.
Qed.

End IntWhiteSpace.

(** ** Every way a request can go through the application *)
Section Dispatch.
Import Flask App.

Lemma full_dispatch_run h p d env req :
  full_dispatch_request (srv_app (run app h p d)) env req
  = full_dispatch_request app env req.
Proof. reflexivity. Qed.

Ltac dispatch_step :=
  first
    [ rewrite run_view_static | rewrite run_view_index | rewrite run_view_health
    | rewrite run_handlers | rewrite app_handler_404
    | rewrite (app_handler_other 405) by lia
    | progress cbn [bind endpoint handle_user_exception send_static_file
                    make_response not_found mimetype body status]
    | progress unfold handle_http_exception, find_error_handler ].

Lemma full_dispatch_cases h p d env req :
  let r := full_dispatch_request (srv_app (run app h p d)) env req in
  r = Return make_default_options_response \/
  (exists f mime data,
     path_part (path req) = "/static/" +:+ f /\
     static_file env f = Some (mime, data) /\
     r = Return (mk_response 200 mime (BFile data))) \/
  r = Return json_not_found \/
  r = Return (http_error_response 405) \/
  (exists page,
     path_part (path req) = "/" /\ templates env !! "index.html" = Some page /\
     r = Return (mk_response 200 "text/html" (BText page))) \/
  (path_part (path req) = "/" /\ (method req = "GET" \/ method req = "HEAD") /\
   templates env !! "index.html" = None /\
   r = Raise (TemplateNotFound "index.html")) \/
  (path_part (path req) = "/health" /\ r = Return (health_body env)).
Proof.
  cbv zeta.
  unfold full_dispatch_request, dispatch_request, match_request.
  rewrite run_url_map. cbn [match_rules].
  unfold rule_matches, method_allowed.
  cbn [pattern methods default_methods existsb].
  destruct (strip_prefix "/static/" (path_part (path req))) as [rest|] eqn:SP;
    [apply strip_prefix_spec in SP; destruct (path_arg_ok rest) eqn:PA|];
  destruct (String.eqb_spec (path_part (path req)) "/") as [P1|P1];
  destruct (String.eqb_spec (path_part (path req)) "/health") as [P2|P2];
  destruct (String.eqb_spec (method req) "GET") as [M1|M1];
  destruct (String.eqb_spec (method req) "HEAD") as [M2|M2];
  destruct (String.eqb_spec (method req) "OPTIONS") as [M3|M3];
  cbn [orb]; try congruence; repeat dispatch_step;
  try (destruct (static_file env rest) as [[mime data]|] eqn:SF);
  repeat dispatch_step;
  try (unfold index, render_template;
       destruct (templates env !! "index.html") as [page|] eqn:TP);
  repeat dispatch_step;
  first
    [ solve [left; reflexivity]
    | solve [right; left; exists rest, mime, data; repeat split; assumption || reflexivity]
    | solve [do 2 right; left; reflexivity]
    | solve [do 3 right; left; reflexivity]
    | solve [do 4 right; left; exists page; repeat split; assumption || reflexivity]
    | solve [do 5 right; left; repeat split; auto]
    | solve [do 6 right; split; [assumption|reflexivity]] ].
Qed.

End Dispatch.

(** ** Properties read off the handlers, the routes and the start-up code *)
Section Further.
Import Flask App.

(** X1.  The timestamp of a GET [/health] response has 19 characters
    ([YYYY-MM-DDTHH:MM:SS]) when the clock reading has no microseconds, and
    26 characters (with [.ffffff]) otherwise: the format varies from call
    to call. *)
Theorem health_timestamp_length (h : string) (p : Z) (d : bool)
    (env : Env) (req : Request) :
  method req = "GET" -> path req = "/health" -> dt_valid (utcnow env) = true ->
  exists ts,
    timestamp_of (serve (run app h p d) env req) = Some ts /\
    String.length ts = (if (microsecond (utcnow env) =? 0)%Z then 19 else 26).
Proof.
  intros Hm Hp V. destruct req as [m pth cl]. cbn in Hm, Hp. subst.
  exists (isoformat (utcnow env)). split; [reflexivity|].
  unfold isoformat. rewrite length_string_of_list_ascii.
  apply length_isoformat_chars, V.
Qed.

Lemma health_timestamp_length_witness :
  (exists ts,
     timestamp_of (serve production noon_00 (mk_request "GET" "/health" 0)) = Some ts /\
     String.length ts = 19) /\
  (exists ts,
     timestamp_of (serve production deployed (mk_request "GET" "/health" 0)) = Some ts /\
     String.length ts = 26).
Proof.
  split.
  - apply (health_timestamp_length "0.0.0.0" 8082%Z false noon_00
             (mk_request "GET" "/health" 0)); reflexivity.
  - apply (health_timestamp_length "0.0.0.0" 8082%Z false deployed
             (mk_request "GET" "/health" 0)); reflexivity.
Defined.

(** X2.  Two GET [/health] responses are equal exactly when the clock
    readings of the two calls are equal: the response identifies the
    reading, down to the microsecond, and depends on nothing else. *)
Theorem health_response_identifies_reading (h : string) (p : Z) (d : bool)
    (env1 env2 : Env) (req1 req2 : Request) :
  method req1 = "GET" -> path req1 = "/health" ->
  method req2 = "GET" -> path req2 = "/health" ->
  dt_valid (utcnow env1) = true -> dt_valid (utcnow env2) = true ->
  (serve (run app h p d) env1 req1 = serve (run app h p d) env2 req2
   <-> utcnow env1 = utcnow env2).
Proof.
  intros Hm1 Hp1 Hm2 Hp2 V1 V2.
  destruct req1 as [m1 p1 c1], req2 as [m2 p2 c2]. cbn in Hm1, Hp1, Hm2, Hp2. subst.
  change (serve (run app h p d) env1 (mk_request "GET" "/health" c1))
    with (health_body env1).
  change (serve (run app h p d) env2 (mk_request "GET" "/health" c2))
    with (health_body env2).
  unfold health_body, jsonify. split.
  - intros E. apply isoformat_inj; [assumption..|]. congruence.
  - intros ->. reflexivity.
Qed.

Lemma health_response_identifies_reading_witness :
  serve production noon_00 (mk_request "GET" "/health" 0)
  = serve production noon_01 (mk_request "GET" "/health" 7)
  <-> utcnow noon_00 = utcnow noon_01.
Proof.
  apply (health_response_identifies_reading "0.0.0.0" 8082%Z false noon_00 noon_01
           (mk_request "GET" "/health" 0) (mk_request "GET" "/health" 7));
    reflexivity.
Defined.

(** X3.  Timestamps of GET [/health] responses compare as strings exactly
    as the clock readings compare as dates: sorting the strings is sorting
    by time, although their lengths differ. *)
Theorem health_timestamp_order (h : string) (p : Z) (d : bool)
    (env1 env2 : Env) (req1 req2 : Request) :
  method req1 = "GET" -> path req1 = "/health" ->
  method req2 = "GET" -> path req2 = "/health" ->
  dt_valid (utcnow env1) = true -> dt_valid (utcnow env2) = true ->
  exists ts1 ts2,
    timestamp_of (serve (run app h p d) env1 req1) = Some ts1 /\
    timestamp_of (serve (run app h p d) env2 req2) = Some ts2 /\
    str_leb ts1 ts2 = dt_leb (utcnow env1) (utcnow env2).
Proof.
  intros Hm1 Hp1 Hm2 Hp2 V1 V2.
  destruct req1 as [m1 p1 c1], req2 as [m2 p2 c2]. cbn in Hm1, Hp1, Hm2, Hp2. subst.
  exists (isoformat (utcnow env1)), (isoformat (utcnow env2)).
  split; [reflexivity|]. split; [reflexivity|].
  apply str_leb_isoformat; assumption.
Qed.

Lemma health_timestamp_order_witness :
  exists ts1 ts2,
    timestamp_of (serve production deployed (mk_request "GET" "/health" 0)) = Some ts1 /\
    timestamp_of (serve production noon_00 (mk_request "GET" "/health" 0)) = Some ts2 /\
    str_leb ts1 ts2 = dt_leb (utcnow deployed) (utcnow noon_00).
Proof.
  apply (health_timestamp_order "0.0.0.0" 8082%Z false deployed noon_00
           (mk_request "GET" "/health" 0) (mk_request "GET" "/health" 0));
    reflexivity.
Defined.

(** X5.  Whatever the request, a response with status 404 comes from
    [not_found]: its content type is JSON and its body is the object
    [{"error": "Not found"}], or nothing when the request is a HEAD; it is
    never the framework's HTML page, those of the static route
    included. *)
Theorem every_404_is_json (h : string) (p : Z) (d : bool) (env : Env) (req : Request) :
  status (serve (run app h p d) env req) = 404%nat ->
  (method req <> "HEAD" ->
   serve (run app h p d) env req
   = mk_response 404 "application/json" (BJson (JObj [("error", JStr "Not found")]))) /\
  (method req = "HEAD" ->
   serve (run app h p d) env req = mk_response 404 "application/json" BEmpty).
Proof.
  rewrite serve_of_dispatch.
  destruct (full_dispatch_cases h p d env req)
    as [C|[(f & mime & data & _ & _ & C)|[C|[C|[(page & _ & _ & C)
       |[(_ & _ & _ & C)|[_ C]]]]]]];
    cbv zeta in C; rewrite C.
  all: try (rewrite status_send; cbn [status make_default_options_response
              http_error_response health_body jsonify]; discriminate).
  - intros _. split; intros Hm.
    + apply send_not_head, Hm.
    + rewrite send_head by assumption. reflexivity.
  - destruct d; [discriminate|]. rewrite status_send. discriminate.
Qed.

Lemma every_404_is_json_witness :
  serve development deployed (mk_request "GET" "/static/missing.css" 0)
  = mk_response 404 "application/json" (BJson (JObj [("error", JStr "Not found")])) /\
  serve development deployed (mk_request "HEAD" "/static/missing.css" 0)
  = mk_response 404 "application/json" BEmpty.
Proof.
  split.
  - apply (proj1 (every_404_is_json "0.0.0.0" 8082%Z true deployed
                    (mk_request "GET" "/static/missing.css" 0) eq_refl)).
    discriminate.
  - apply (proj2 (every_404_is_json "0.0.0.0" 8082%Z true deployed
                    (mk_request "HEAD" "/static/missing.css" 0) eq_refl)).
    reflexivity.
Defined.

(** X6.  With debug mode off, a response has status 500 exactly when the
    handling of the request raised an exception; the exception is then
    the one entry of the application log, the content type is JSON and
    the body is the object [{"error": "Internal server error"}], or
    nothing when the request is a HEAD. *)
Theorem every_500_in_production_is_json (h : string) (p : Z)
    (env : Env) (req : Request) :
  (status (serve (run app h p false) env req) = 500%nat <->
   exists e, full_dispatch_request (srv_app (run app h p false)) env req = Raise e) /\
  (forall e,
     full_dispatch_request (srv_app (run app h p false)) env req = Raise e ->
     (method req <> "HEAD" ->
      serve (run app h p false) env req
      = mk_response 500 "application/json"
          (BJson (JObj [("error", JStr "Internal server error")]))) /\
     (method req = "HEAD" ->
      serve (run app h p false) env req
      = mk_response 500 "application/json" BEmpty) /\
     logged (wsgi_app (srv_app (run app h p false)) env req) = [e]).
Proof.
  rewrite serve_of_dispatch, logged_of_dispatch.
  split.
  - destruct (full_dispatch_cases h p false env req)
      as [C|[(f & mime & data & _ & _ & C)|[C|[C|[(page & _ & _ & C)
         |[(P & _ & T & C)|[_ C]]]]]]];
      cbv zeta in C; rewrite C; rewrite status_send.
    all: try (split; [discriminate|intros [e He]; discriminate He]).
    split; [intros _; eexists; reflexivity|reflexivity].
  - intros e ->. split; [|split].
    + intros Hm. apply send_not_head, Hm.
    + intros Hm. rewrite send_head by assumption. reflexivity.
    + reflexivity.
Qed.

Lemma every_500_in_production_is_json_witness :
  status (serve production no_templates (mk_request "HEAD" "/" 0)) = 500%nat /\
  serve production no_templates (mk_request "HEAD" "/" 0)
  = mk_response 500 "application/json" BEmpty /\
  logged (wsgi_app (srv_app production) no_templates (mk_request "HEAD" "/" 0))
  = [TemplateNotFound "index.html"].
Proof.
  pose proof (every_500_in_production_is_json "0.0.0.0" 8082%Z no_templates
                (mk_request "HEAD" "/" 0)) as [I A].
  split.
  - apply (proj2 I). exists (TemplateNotFound "index.html"). reflexivity.
  - destruct (A (TemplateNotFound "index.html") eq_refl) as (_ & H & L).
    split; [apply H; reflexivity|exact L].
Defined.

Lemma static_file_missing_witness :
  serve production deployed (mk_request "GET" ("/static/" +:+ "css/../../app.py") 3)
  = mk_response 404 "application/json" (BJson (JObj [("error", JStr "Not found")])).
Proof.
  apply (static_file_missing "0.0.0.0" 8082%Z false deployed "css/../../app.py" 3%Z);
    reflexivity.
Defined.

(** X8.  The server is read-only: a request whose method is none of GET,
    HEAD and OPTIONS is stopped by URL matching with 404 or 405 on every
    path, so no view is called; the response is either status 404 with
    the JSON body [{"error": "Not found"}] or status 405 with the
    framework's HTML page for 405, and nothing is logged. *)
Theorem other_methods_reach_no_view (h : string) (p : Z) (d : bool)
    (env : Env) (req : Request) :
  method req <> "GET" -> method req <> "HEAD" -> method req <> "OPTIONS" ->
  (exists code, (code = 404 \/ code = 405)%nat /\
     match_request (srv_app (run app h p d)) req = Raise (HTTPException code)) /\
  (serve (run app h p d) env req
   = mk_response 404 "application/json" (BJson (JObj [("error", JStr "Not found")])) \/
   serve (run app h p d) env req = mk_response 405 "text/html" (BErrorPage 405)) /\
  logged (wsgi_app (srv_app (run app h p d)) env req) = [].
Proof.
  intros Hg Hh Ho.
  assert (M : exists code, (code = 404 \/ code = 405)%nat /\
     match_request (srv_app (run app h p d)) req = Raise (HTTPException code)).
  { unfold match_request. rewrite run_url_map. cbn [match_rules].
    unfold method_allowed. cbn [methods default_methods existsb].
    pose proof Hg as Hg'. pose proof Hh as Hh'. pose proof Ho as Ho'.
    apply String.eqb_neq in Hg', Hh', Ho'. rewrite Hg', Hh', Ho'. cbn [orb].
    repeat match goal with
           | |- context [rule_matches ?r ?x] => destruct (rule_matches r x)
           end; eauto. }
  split; [exact M|].
  destruct M as (code & Hc & M).
  rewrite serve_of_dispatch, logged_of_dispatch.
  unfold full_dispatch_request, dispatch_request. rewrite M.
  cbn [bind handle_user_exception]. unfold handle_http_exception, find_error_handler.
  rewrite run_handlers.
  destruct Hc as [-> | ->].
  - rewrite app_handler_404. cbn [not_found bind make_response mimetype body jsonify].
    rewrite (send_not_head req _ Hh). split; [left; reflexivity|reflexivity].
  - rewrite (app_handler_other 405) by lia. cbn [bind make_response].
    rewrite (send_not_head req _ Hh). split; [right; reflexivity|reflexivity].
Qed.

Lemma other_methods_reach_no_view_witness :
  (exists code, (code = 404 \/ code = 405)%nat /\
     match_request (srv_app production) (mk_request "DELETE" "/static/app.js" 0)
     = Raise (HTTPException code)) /\
  (serve production deployed (mk_request "DELETE" "/static/app.js" 0)
   = mk_response 404 "application/json" (BJson (JObj [("error", JStr "Not found")])) \/
   serve production deployed (mk_request "DELETE" "/static/app.js" 0)
   = mk_response 405 "text/html" (BErrorPage 405)) /\
  logged (wsgi_app (srv_app production) deployed
            (mk_request "DELETE" "/static/app.js" 0)) = [].
Proof.
  apply (other_methods_reach_no_view "0.0.0.0" 8082%Z false deployed
           (mk_request "DELETE" "/static/app.js" 0)); discriminate.
Defined.

(** X9.  Each route reads only its own input: the response and the log of
    a request do not change when the surroundings change, as long as the
    clock is the same for [/health], the template folder is the same for
    [/], and the static folder is the same for paths below [/static/].  So
    [/] never shows the time and [/health] never touches a file. *)
Theorem route_isolation (h : string) (p : Z) (d : bool)
    (env env' : Env) (req : Request) :
  (path_part (path req) = "/health" -> utcnow env = utcnow env') ->
  (path_part (path req) = "/" -> templates env = templates env') ->
  ((exists f, path_part (path req) = "/static/" +:+ f) ->
   static_files env = static_files env') ->
  wsgi_app (srv_app (run app h p d)) env req
  = wsgi_app (srv_app (run app h p d)) env' req /\
  serve (run app h p d) env req = serve (run app h p d) env' req.
Proof.
  intros Hc Ht Hs.
  assert (F : full_dispatch_request (srv_app (run app h p d)) env req
              = full_dispatch_request (srv_app (run app h p d)) env' req).
  { unfold full_dispatch_request, dispatch_request, match_request.
    rewrite run_url_map. cbn [match_rules].
    unfold rule_matches, method_allowed.
    cbn [pattern methods default_methods existsb].
    destruct (strip_prefix "/static/" (path_part (path req))) as [rest|] eqn:SP;
      [apply strip_prefix_spec in SP; destruct (path_arg_ok rest) eqn:PA|];
    destruct (String.eqb_spec (path_part (path req)) "/") as [P1|P1];
    destruct (String.eqb_spec (path_part (path req)) "/health") as [P2|P2];
    destruct (String.eqb (method req) "GET");
    destruct (String.eqb (method req) "HEAD");
    destruct (String.eqb (method req) "OPTIONS");
    cbn [orb bind endpoint]; try reflexivity; try congruence;
    rewrite ?run_view_static, ?run_view_index, ?run_view_health;
    cbn [send_static_file]; unfold index, health_check, render_template, static_file;
    try (rewrite (Hs (ex_intro _ rest SP)));
    try (rewrite (Ht P1));
    try (rewrite (Hc P2));
    reflexivity. }
  unfold serve, wsgi_app. cbn [srv_app]. rewrite F. split; reflexivity.
Qed.

Lemma route_isolation_witness :
  wsgi_app (srv_app production) deployed (mk_request "GET" "/health" 0)
  = wsgi_app (srv_app production)
      (mk_env (utcnow deployed) ∅ ∅) (mk_request "GET" "/health" 0) /\
  serve production deployed (mk_request "GET" "/health" 0)
  = serve production (mk_env (utcnow deployed) ∅ ∅) (mk_request "GET" "/health" 0).
Proof.
  apply (route_isolation "0.0.0.0" 8082%Z false deployed
           (mk_env (utcnow deployed) ∅ ∅) (mk_request "GET" "/health" 0)).
  - reflexivity.
  - discriminate.
  - intros [f H]. discriminate H.
Defined.

(** X11.  A [PORT] that is set but empty, or holds only white space (any
    characters of [str.isspace]), does not select the default port:
    start-up ends with [ValueError]. *)
Theorem port_blank_aborts (environ : gmap string string) (s : string) :
  environ !! "PORT" = Some s -> blank s = true ->
  main environ = Raise ValueError.
Proof.
  intros Hs Hb. unfold main, environ_get_default. rewrite Hs. cbn [int].
  rewrite int_of_str_blank by assumption. reflexivity.
Qed.

Lemma port_blank_aborts_witness :
  main (<["PORT" := ""]> ∅) = Raise ValueError.
Proof.
  apply (port_blank_aborts (<["PORT" := ""]> ∅) ""); reflexivity.
Defined.

(** X12.  The white space that [int()] skips is ignored around the value
    of [PORT]: padding the value on either side with spaces, tabs, line
    ends, form feeds, vertical tabs, NEL or no-break spaces starts the
    same server, or fails in the same way.  (The separators
    U+001C..U+001F are not among them.) *)
Theorem port_padding_ignored (environ : gmap string string) (pre s post : string) :
  padding pre = true -> padding post = true ->
  main (<["PORT" := pre +:+ s +:+ post]> environ) = main (<["PORT" := s]> environ).
Proof.
  intros Hpre Hpost. unfold main, environ_get_default, environ_get.
  rewrite !lookup_insert_eq. cbn [int].
  rewrite int_of_str_padded by assumption.
  rewrite !lookup_insert_ne by discriminate. reflexivity.
Qed.

Lemma port_padding_ignored_witness :
  main (<["PORT" := "  " +:+ "9090" +:+ " "]> ∅) = main (<["PORT" := "9090"]> ∅).
Proof.
  apply (port_padding_ignored ∅ "  " "9090" " "); reflexivity.
Defined.


End Further.
